(** * bug-report-package: the [BugReportClient] and its schemas

    A shallow embedding of the TypeScript client library
    ([src/client/index.ts], [src/types/index.ts], [src/errors/index.ts])
    and the properties its specification states about it.

    The repository snapshot holds five revisions of the client class and two
    revisions of the schema module.  Each revision is embedded in a module of
    its own, with the names the source uses:

    - [Basic]    client/index.ts, first copy   (appName; submit, get)
    - [Streamed] client/index.ts, second copy  (adds stream progress, tags)
    - [Cors]     client/index.ts, third copy   (handleResponse, FormData, XHR)
    - [Upload]   part_000: multipart upload, paths under [/api]
    - [Checked]  part_001: the constructor parses [AppCredentialsSchema]
    - [TypesFile], [TypesImage]  client/index.ts, fourth and fifth copy

    Values of the host language are represented by [JsVal]; the network, the
    clock and the parts of the platform the code calls but does not define
    ([JSON.stringify], [JSON.parse], the text of a [ZodError], [new URL]) are
    fields of an environment record [Env]. *)

From stdpp Require Import gmap strings list pretty.

Open Scope string_scope.

(** ** Values *)

(** A [File] as far as the code looks at it: [file.type], [file.size]. *)
Record File := mkFile { file_name : string; file_type : string; file_size : Z }.

(** JavaScript values.  Numbers are the integers below 10^21 in magnitude,
    which a template literal prints in full (the code only reads HTTP status
    codes and [meta.code]); a string is held as its well-formed UTF-8 bytes;
    a [Date] is a valid date, given by its time value in milliseconds, or the
    invalid date; an object is its own enumerable properties in insertion
    order. *)
Local Unset Elimination Schemes.
Inductive JsVal :=
| JUndefined
| JNull
| JBool (b : bool)
| JNum (n : Z)
| JStr (s : string)
| JDate (ms : Z)
| JInvalidDate
| JFile (f : File)
| JArr (items : list JsVal)
| JObj (fields : list (string * JsVal)).
Local Set Elimination Schemes.

(** The UTF-16 code units a UTF-8 byte stands for: one for the lead byte of
    a sequence of up to three bytes, two for the lead byte of a four-byte
    sequence (a surrogate pair), none for a continuation byte. *)
Definition utf16_units (c : Ascii.ascii) : nat :=
  let b := Ascii.nat_of_ascii c in
  if Nat.ltb b 128 then 1
  else if Nat.ltb b 192 then 0
  else if Nat.ltb b 240 then 1
  else 2.

(** [s.length]: the length of the string in UTF-16 code units. *)
Fixpoint js_length (s : string) : nat :=
  match s with
  | EmptyString => 0
  | String c rest => utf16_units c + js_length rest
  end.

(** [lookup_field k fields]: the first property named [k]. *)
Fixpoint lookup_field (k : string) (fields : list (string * JsVal)) : option JsVal :=
  match fields with
  | [] => None
  | (k', v) :: rest => if String.eqb k k' then Some v else lookup_field k rest
  end.

(** [{...fields, k: v}]: an existing key keeps its place and takes the new
    value, a new key goes last. *)
Fixpoint set_field (k : string) (v : JsVal) (fields : list (string * JsVal))
  : list (string * JsVal) :=
  match fields with
  | [] => [(k, v)]
  | (k', v') :: rest =>
      if String.eqb k k' then (k', v) :: rest else (k', v') :: set_field k v rest
  end.

(** [{...v}]: the own properties of an object; nothing for the other values
    the code can spread (after validation the operand is always an object). *)
Definition spread (v : JsVal) : list (string * JsVal) :=
  match v with
  | JObj fields => fields
  | _ => []
  end.

(** [a ?? b] *)
Definition nullish (a b : JsVal) : JsVal :=
  match a with
  | JUndefined | JNull => b
  | _ => a
  end.

(** [is_object v]: what zod's [z.object] takes for an object. *)
Definition is_object (v : JsVal) : bool :=
  match v with
  | JObj _ | JFile _ => true
  | _ => false
  end.

(** [v.k] on a value that is neither [undefined] nor [null]. *)
Definition prop (v : JsVal) (k : string) : JsVal :=
  match v with
  | JObj fields => default JUndefined (lookup_field k fields)
  | _ => JUndefined
  end.

(** ** Errors *)

(** The classes of [src/errors/index.ts], the built-in classes the code
    meets, zod's error, and [AppCredentialTypeError], which the last revision
    of the client imports from [../errors]. *)
Inductive ErrorClass :=
| Error
| TypeError
| SyntaxError
| ZodError
| BugReportClientError
| ApiBugReportError
| NotFoundBugReportError
| AppCredentialTypeError
| HostError (name : string).

Record JsError := mkError { err_class : ErrorClass; err_message : string }.

(** [error.name] *)
Definition class_name (c : ErrorClass) : string :=
  match c with
  | Error => "Error"
  | TypeError => "TypeError"
  | SyntaxError => "SyntaxError"
  | ZodError => "ZodError"
  | BugReportClientError => "BugReportClientError"
  | ApiBugReportError => "ApiBugReportError"
  | NotFoundBugReportError => "NotFoundBugReportError"
  | AppCredentialTypeError => "AppCredentialTypeError"
  | HostError name => name
  end.

(** [`${error}`]: [Error.prototype.toString], which [ZodError] overrides
    to return its message alone. *)
Definition Error_toString (e : JsError) : string :=
  match err_class e with
  | ZodError => err_message e
  | c =>
      match err_message e with
      | EmptyString => class_name c
      | msg => class_name c ++ ": " ++ msg
      end
  end.

(** Synchronous code that returns or throws. *)
Inductive Result (A : Type) :=
| Return (a : A)
| Throw (e : JsError).
Arguments Return {A} a.
Arguments Throw {A} e.

Definition and_then {A B} (r : Result A) (k : A -> Result B) : Result B :=
  match r with
  | Return a => k a
  | Throw e => Throw e
  end.

Notation "'let*' x := r 'in' k" := (and_then r (fun x => k))
  (at level 10, x name, r at level 100, k at level 200).

(** ** Zod schemas *)

Inductive StringCheck :=
| min (n : nat)
| max (n : nat)
| is_url.

(** The schema combinators [src/types/index.ts] uses. *)
Local Unset Elimination Schemes.
Inductive Schema :=
| z_string (checks : list StringCheck)
| z_enum (values : list string)
| z_nativeEnum (values : list string)
| z_date
| z_unknown
| z_instanceof_File (refine : File -> bool)
| z_array (element : Schema) (at_least : option nat)
| z_optional (inner : Schema)
| z_record (value : Schema)
| z_object (shape : list (string * Schema)).
Local Set Elimination Schemes.

(** ** The environment *)

Inductive Transport := UseFetch | UseXhr.

Inductive Body :=
| NoBody
| TextBody (text : string)
| StreamBody (text : string)
| FormBody (entries : list (string * JsVal)).

(** One HTTP request as the client hands it to [fetch] or to an
    [XMLHttpRequest]. *)
Record Request := mkRequest {
  via : Transport;
  method : string;
  url : string;
  req_headers : gmap string string;
  body : Body;
  credentials : option string;
  mode : option string
}.

(** The options of [fetch] that [defaultFetchOptions] holds. *)
Record RequestInit := mkInit {
  init_credentials : option string;
  init_mode : option string;
  init_headers : gmap string string
}.

(** What the network does with a request: an HTTP response, or a transport
    failure.  [fetch] rejects with the error of the failure; an
    [XMLHttpRequest] fires its [error] event, which carries no error. *)
Inductive NetOutcome :=
| Responded (status : Z) (text : string)
| Failed (e : JsError).

(** The world around the client: the network, the clock, and the platform
    functions whose text output the repository does not define. *)
Record Env := mkEnv {
  transport : Request -> NetOutcome;
  Date_now : Z;
  JSON_stringify : JsVal -> string;
  JSON_parse : string -> Result JsVal;
  Date_toString : Z -> string;
  URL_parses : string -> bool;
  ZodError_message : Schema -> JsVal -> string
}.

(** The string a value converts to, or [None] where the conversion throws:
    an object with an own [toString] property has one that cannot be called
    (no value here is a function), and then nothing yields a primitive.  An
    array joins the strings of its items, with nothing for [undefined] and
    [null]. *)
Fixpoint ToString (env : Env) (v : JsVal) : option string :=
  match v with
  | JUndefined => Some "undefined"
  | JNull => Some "null"
  | JBool true => Some "true"
  | JBool false => Some "false"
  | JNum n => Some (pretty n)
  | JStr s => Some s
  | JDate ms => Some (Date_toString env ms)
  | JInvalidDate => Some "Invalid Date"
  | JFile _ => Some "[object File]"
  | JArr items =>
      (fix join (items : list JsVal) : option string :=
         match items with
         | [] => Some EmptyString
         | x :: rest =>
             match match x with
                   | JUndefined | JNull => Some EmptyString
                   | _ => ToString env x
                   end, join rest with
             | Some s, Some r =>
                 Some match rest with
                      | [] => s
                      | _ => s ++ "," ++ r
                      end
             | _, _ => None
             end
         end) items
  | JObj fields =>
      match lookup_field "toString" fields with
      | Some _ => None
      | None => Some "[object Object]"
      end
  end.

(** [`${v}`] inside a template literal (the wording of the message is
    V8's). *)
Definition interpolate (env : Env) (v : JsVal) : Result string :=
  match ToString env v with
  | Some s => Return s
  | None => Throw (mkError TypeError "Cannot convert object to primitive value")
  end.

(** How an error message names [undefined] and [null]. *)
Definition nullish_name (v : JsVal) : string :=
  match v with
  | JNull => "null"
  | _ => "undefined"
  end.

(** [v.k], which throws on [undefined] and [null] (the wording of the
    message is V8's). *)
Definition get_prop (env : Env) (v : JsVal) (k : string) : Result JsVal :=
  match v with
  | JUndefined | JNull =>
      Throw (mkError TypeError
        ("Cannot read properties of " ++ nullish_name v ++ " (reading '" ++ k ++ "')"))
  | _ => Return (prop v k)
  end.

(** [v.forEach(f)]: the items [f] is called on, in order. *)
Definition forEach (env : Env) (v : JsVal) : Result (list JsVal) :=
  match v with
  | JArr items => Return items
  | JUndefined | JNull =>
      Throw (mkError TypeError
        ("Cannot read properties of " ++ nullish_name v ++ " (reading 'forEach')"))
  | _ => Throw (mkError TypeError "report.file.forEach is not a function")
  end.

(** [new URL(s)] succeeds: never on the empty string, otherwise as the
    platform's parser decides. *)
Definition new_URL_ok (env : Env) (s : string) : bool :=
  match s with
  | EmptyString => false
  | _ => URL_parses env s
  end.

Definition string_check (env : Env) (s : string) (c : StringCheck) : bool :=
  match c with
  | min n => Nat.leb n (js_length s)
  | max n => Nat.leb (js_length s) n
  | is_url => new_URL_ok env s
  end.

(** [accepts env schema v]: [schema.safeParse(v).success]. *)
Fixpoint accepts (env : Env) (schema : Schema) (v : JsVal) {struct schema} : bool :=
  match schema with
  | z_string checks =>
      match v with
      | JStr s => forallb (string_check env s) checks
      | _ => false
      end
  | z_enum values | z_nativeEnum values =>
      match v with
      | JStr s => existsb (String.eqb s) values
      | _ => false
      end
  | z_date =>
      match v with
      | JDate _ => true
      | _ => false
      end
  | z_unknown => true
  | z_instanceof_File refine =>
      match v with
      | JFile f => refine f
      | _ => false
      end
  | z_array element at_least =>
      match v with
      | JArr items =>
          forallb (accepts env element) items
          && match at_least with
             | Some n => Nat.leb n (length items)
             | None => true
             end
      | _ => false
      end
  | z_optional inner =>
      match v with
      | JUndefined => true
      | _ => accepts env inner v
      end
  | z_record value =>
      match v with
      | JObj fields => forallb (fun kv => accepts env value (snd kv)) fields
      | JFile _ => true
      | _ => false
      end
  | z_object shape =>
      is_object v
      && (fix fields_ok (shape : list (string * Schema)) : bool :=
            match shape with
            | [] => true
            | (k, s) :: rest => accepts env s (prop v k) && fields_ok rest
            end) shape
  end.

(** [schema.parse(v)]: returns, or throws a [ZodError]. *)
Definition parse (env : Env) (schema : Schema) (v : JsVal) : Result unit :=
  if accepts env schema v then Return tt
  else Throw (mkError ZodError (ZodError_message env schema v)).

(** ** The schema module, [src/types/index.ts] *)

(** The earlier revision: an optional base64 [image] and [metadata]. *)
Module TypesImage.

(** [enum BugSeverity] *)
Definition BugSeverity : list string := ["LOW"; "MEDIUM"; "HIGH"; "CRITICAL"].

Definition BugTagSchema : Schema :=
  z_enum ["UI"; "FUNCTIONALITY"; "PERFORMANCE"; "SECURITY"; "CRASH";
          "NETWORK"; "DATABASE"; "OTHER"].

Definition BugReportSchema : Schema :=
  z_object
    [("title", z_string [min 1; max 200]);
     ("description", z_string [min 1]);
     ("severity", z_nativeEnum BugSeverity);
     ("tags", z_array BugTagSchema (Some 1));
     ("image", z_optional (z_string []));
     ("metadata", z_optional (z_record z_unknown));
     ("createdAt", z_optional z_date)].

End TypesImage.

(** The later revision: file attachments and the credentials schema. *)
Module TypesFile.

Definition BugSeverity : list string := ["LOW"; "MEDIUM"; "HIGH"; "CRITICAL"].

Definition BugTagSchema : Schema :=
  z_enum ["UI"; "FUNCTIONALITY"; "PERFORMANCE"; "SECURITY"; "CRASH";
          "NETWORK"; "DATABASE"; "OTHER"].

Definition BugReportSchema : Schema :=
  z_object
    [("title", z_string [min 1; max 200]);
     ("description", z_string [min 1]);
     ("severity", z_nativeEnum BugSeverity);
     ("tags", z_array BugTagSchema None);
     ("file", z_optional (z_array (z_string []) None));
     ("createdAt", z_optional z_date)].

(** [["image/png", "image/jpeg", "image/jpg", ,]]: the literal ends with a
    hole, which [includes] reads as [undefined]. *)
Definition allowed_types : list (option string) :=
  [Some "image/png"; Some "image/jpeg"; Some "image/jpg"; None].

(** [allowed_types.includes(x)] for a string [x]. *)
Definition includes (xs : list (option string)) (x : string) : bool :=
  existsb (fun o => match o with
                    | Some s => String.eqb s x
                    | None => false
                    end) xs.

Definition BugReportFileSchema : Schema :=
  z_object
    [("title", z_string [min 1; max 200]);
     ("description", z_string [min 1]);
     ("severity", z_nativeEnum BugSeverity);
     ("tags", z_array BugTagSchema None);
     ("file",
      z_array
        (z_instanceof_File (fun file => includes allowed_types (file_type file)))
        None);
     ("createdAt", z_optional z_date)].

Definition AppCredentialsSchema : Schema :=
  z_object
    [("appUrl", z_string [is_url]);
     ("appKey", z_string [min 5]);
     ("appSecret", z_string [min 5])].

End TypesFile.

(** Which revision of [../types] a client that imports only [BugReport] and
    [BugReportSchema] is built against. *)
Inductive TypesRevision := ImageTypes | FileTypes.

Definition BugReportSchema_of (types : TypesRevision) : Schema :=
  match types with
  | ImageTypes => TypesImage.BugReportSchema
  | FileTypes => TypesFile.BugReportSchema
  end.

(** ** The error classes, [src/errors/index.ts] *)

(** [new ApiBugReportError(errorData)] *)
Definition new_ApiBugReportError (env : Env) (errorData : JsVal) : Result JsError :=
  let* code := get_prop env errorData "code" in
  let* code_text := interpolate env code in
  let* message := get_prop env errorData "message" in
  let* message_text := interpolate env message in
  Return (mkError ApiBugReportError
            ("API Error [" ++ code_text ++ "]: " ++ message_text)).

(** [new NotFoundBugReportError(errorData)] *)
Definition new_NotFoundBugReportError (env : Env) (errorData : JsVal) : Result JsError :=
  let* code := get_prop env errorData "code" in
  let* code_text := interpolate env code in
  let* message := get_prop env errorData "message" in
  let* message_text := interpolate env message in
  Return (mkError NotFoundBugReportError
            ("Not Found Error [" ++ code_text ++ "]: " ++ message_text)).

(** ** Promises and the client monad *)

(** How an [async] call ends: the promise is fulfilled, rejected, or never
    settled. *)
Inductive Completion (A : Type) :=
| Fulfilled (a : A)
| Rejected (e : JsError)
| Pending.
Arguments Fulfilled {A} a.
Arguments Rejected {A} e.
Arguments Pending {A}.

(** The instance fields: [this.apiUrl] and [this.headers]. *)
Record Client := mkClient {
  apiUrl : string;
  headers : gmap string string
}.

(** The result of running a method: the instance afterwards, the requests
    that went out, and how the promise ended. *)
Record Run (A : Type) := mkRun {
  final : Client;
  sent : list Request;
  outcome : Completion A
}.
Arguments mkRun {A} final sent outcome.
Arguments final {A} r.
Arguments sent {A} r.
Arguments outcome {A} r.

Definition M (A : Type) : Type := Env -> Client -> Run A.

Definition ret {A} (a : A) : M A :=
  fun _ this => mkRun this [] (Fulfilled a).

Definition bind {A B} (m : M A) (k : A -> M B) : M B :=
  fun env this =>
    let r := m env this in
    match outcome r with
    | Fulfilled a =>
        let r' := k a env (final r) in
        mkRun (final r') (sent r ++ sent r') (outcome r')
    | Rejected e => mkRun (final r) (sent r) (Rejected e)
    | Pending => mkRun (final r) (sent r) Pending
    end.

Notation "x <- m ;; k" := (bind m (fun x => k))
  (at level 100, m at next level, right associativity).
Notation "m ;;; k" := (bind m (fun _ => k))
  (at level 100, right associativity).

(** [throw e] inside an [async] method, or [reject(e)]. *)
Definition throw {A} (e : JsError) : M A :=
  fun _ this => mkRun this [] (Rejected e).

(** A promise nobody settles. *)
Definition never {A} : M A :=
  fun _ this => mkRun this [] Pending.

Definition get_this : M Client :=
  fun _ this => mkRun this [] (Fulfilled this).

(** [this.headers = h] *)
Definition set_headers (h : gmap string string) : M unit :=
  fun _ this => mkRun (mkClient (apiUrl this) h) [] (Fulfilled tt).

Definition ask : M Env :=
  fun env this => mkRun this [] (Fulfilled env).

(** Synchronous code inside an [async] method: a throw rejects the promise. *)
Definition lift {A} (r : Result A) : M A :=
  match r with
  | Return a => ret a
  | Throw e => throw e
  end.

(** ** The transports *)

Record Response := mkResponse { status : Z; response_text : string }.

(** [response.ok]: the status is in the range 200-299. *)
Definition ok (response : Response) : bool :=
  (200 <=? status response)%Z && (status response <=? 299)%Z.

(** [await fetch(url, init)] *)
Definition fetch (req : Request) : M Response :=
  fun env this =>
    mkRun this [req]
      match transport env req with
      | Responded st text => Fulfilled (mkResponse st text)
      | Failed e => Rejected e
      end.

(** [await response.json()] *)
Definition json (response : Response) : M JsVal :=
  env <- ask;; lift (JSON_parse env (response_text response)).

(** The event an [XMLHttpRequest] ends with. *)
Inductive XhrEvent :=
| on_load (xhr_status : Z) (xhr_response : string)
| on_error.

(** [xhr.open(method, url); xhr.setRequestHeader(...); xhr.send(body)] and
    the event that follows. *)
Definition xhr_send (req : Request) : M XhrEvent :=
  fun env this =>
    mkRun this [req]
      (Fulfilled match transport env req with
                 | Responded st text => on_load st text
                 | Failed _ => on_error
                 end).

(** [try { BugReportSchema.parse(report) } catch (error) { throw new Error(...) }] *)
Definition validate (schema : Schema) (report : JsVal) : M unit :=
  env <- ask;;
  match parse env schema report with
  | Return _ => ret tt
  | Throw error =>
      throw (mkError Error ("Invalid bug report data: " ++ Error_toString error))
  end.

(** [JSON.stringify({...report, createdAt: report.createdAt ?? new Date()})] *)
Definition stamped_body (env : Env) (report : JsVal) : Result string :=
  let* createdAt := get_prop env report "createdAt" in
  Return (JSON_stringify env
            (JObj (set_field "createdAt"
                     (nullish createdAt (JDate (Date_now env)))
                     (spread report)))).

(** The [FormData] both upload methods build. *)
Definition form_of (env : Env) (report : JsVal) : Result (list (string * JsVal)) :=
  let* title := get_prop env report "title" in
  let* description := get_prop env report "description" in
  let* severity := get_prop env report "severity" in
  let* tags := get_prop env report "tags" in
  let* file := get_prop env report "file" in
  let* files := forEach env file in
  Return ([("title", title); ("description", description);
           ("severity", severity); ("tags", JStr (JSON_stringify env tags))]
          ++ map (fun file => ("file", file)) files)%list.

(** ** The client, [src/client/index.ts] *)

(** [interface BugReportClientOptions]; a field that is left out is [None].
    The revisions after the first two have no [appName]. *)
Module BugReportClientOptions.
Record t := mk {
  apiUrl : option string;
  appName : option string;
  appKey : option string;
  appSecret : option string;
  headers : option (gmap string string)
}.
End BugReportClientOptions.
Module O := BugReportClientOptions.
Abbreviation Options := BugReportClientOptions.t.

(** [!s] for an optional string: absent or empty. *)
Definition falsy (s : option string) : bool :=
  match s with
  | None => true
  | Some EmptyString => true
  | Some _ => false
  end.

(** [`${s}`] for an optional string. *)
Definition text_of (s : option string) : string :=
  default "undefined" s.

(** The optional string as a JavaScript value. *)
Definition js_of (s : option string) : JsVal :=
  match s with
  | None => JUndefined
  | Some x => JStr x
  end.

(** [...(options.headers ?? {})] *)
Definition custom_headers (options : Options) : gmap string string :=
  default ∅ (O.headers options).

(** The non-2xx branch of the methods that raise [ApiBugReportError] only. *)
Definition throw_api_error {A} (response : Response) : M A :=
  env <- ask;;
  data <- json response;;
  meta <- lift (get_prop env data "meta");;
  e <- lift (new_ApiBugReportError env meta);;
  throw e.

(** The non-2xx branch of the methods that single out status 404. *)
Definition throw_mapped_error {A} (response : Response) : M A :=
  env <- ask;;
  errorData <- json response;;
  meta <- lift (get_prop env errorData "meta");;
  if (status response =? 404)%Z then
    e <- lift (new_NotFoundBugReportError env meta);; throw e
  else
    e <- lift (new_ApiBugReportError env meta);; throw e.

(** First copy of [src/client/index.ts]. *)
Module Basic.
Definition constructor (options : Options) : Result Client :=
  if falsy (O.apiUrl options) then
    Throw (mkError Error "API URL is required")
  else if falsy (O.appName options) || falsy (O.appKey options)
          || falsy (O.appSecret options) then
    Throw (mkError Error
             "App credentials (App Name, App Key, App Secret) are required")
  else
    Return
      (mkClient (text_of (O.apiUrl options))
         (custom_headers options
          ∪ <["Content-Type" := "application/json"]>
             (<["X-App-Name" := text_of (O.appName options)]>
               (<["X-App-Key" := text_of (O.appKey options)]>
                 (<["Authorization" := "Bearer " ++ text_of (O.appSecret options)]>
                   ∅))))).

Definition submitBugReport (types : TypesRevision) (report : JsVal) : M JsVal :=
  validate (BugReportSchema_of types) report;;;
  env <- ask;;
  this <- get_this;;
  body <- lift (stamped_body env report);;
  response <- fetch (mkRequest UseFetch "POST"
                       (apiUrl this ++ "/bugs/reports")
                       (headers this) (TextBody body) None None);;
  if negb (ok response) then throw_api_error response
  else json response.

Definition getBugReport (id : string) : M JsVal :=
  this <- get_this;;
  response <- fetch (mkRequest UseFetch "GET"
                       (apiUrl this ++ "/bugs/" ++ id)
                       (headers this) NoBody None None);;
  if negb (ok response) then throw_mapped_error response
  else json response.

End Basic.

(** Second copy of [src/client/index.ts]: progress through a
    [TransformStream], and [getBugTags]. *)
Module Streamed.

Definition constructor (options : Options) : Result Client :=
  if falsy (O.apiUrl options) then
    Throw (mkError Error "API URL is required")
  else if falsy (O.appName options) || falsy (O.appKey options)
          || falsy (O.appSecret options) then
    Throw (mkError Error
             "App credentials (App Name, App Key, App Secret) are required")
  else
    Return
      (mkClient (text_of (O.apiUrl options))
         (custom_headers options
          ∪ <["Content-Type" := "application/json"]>
             (<["X-App-Name" := text_of (O.appName options)]>
               (<["X-App-Key" := text_of (O.appKey options)]>
                 (<["Authorization" := "Bearer " ++ text_of (O.appSecret options)]>
                   ∅))))).

Definition submitBugReport (types : TypesRevision) (report : JsVal) : M JsVal :=
  validate (BugReportSchema_of types) report;;;
  env <- ask;;
  this <- get_this;;
  body <- lift (stamped_body env report);;
  response <- fetch (mkRequest UseFetch "POST"
                       (apiUrl this ++ "/bugs/reports")
                       (headers this) (TextBody body) None None);;
  if negb (ok response) then throw_api_error response
  else json response.

(** The body goes out as one chunk piped through the progress stream. *)
Definition submitBugReportWithProgress (types : TypesRevision) (report : JsVal)
  : M JsVal :=
  validate (BugReportSchema_of types) report;;;
  env <- ask;;
  this <- get_this;;
  body <- lift (stamped_body env report);;
  response <- fetch (mkRequest UseFetch "POST"
                       (apiUrl this ++ "/bugs/reports")
                       (headers this) (StreamBody body) None None);;
  if negb (ok response) then throw_api_error response
  else json response.

Definition getBugReport (id : string) : M JsVal :=
  this <- get_this;;
  response <- fetch (mkRequest UseFetch "GET"
                       (apiUrl this ++ "/bugs/" ++ id)
                       (headers this) NoBody None None);;
  if negb (ok response) then throw_mapped_error response
  else json response.

Definition getBugTags : M JsVal :=
  this <- get_this;;
  response <- fetch (mkRequest UseFetch "GET"
                       (apiUrl this ++ "/bugs/tags")
                       (headers this) NoBody None None);;
  if negb (ok response) then throw_api_error response
  else json response.

End Streamed.

(** The [load] and [error] listeners of [submitBugReportWithFileProgress],
    the same in the three revisions that have the method.  An exception that
    escapes the [load] listener settles nothing. *)
Definition upload_listeners (ev : XhrEvent) : M JsVal :=
  env <- ask;;
  match ev with
  | on_load st response =>
      if (200 <=? st)%Z && (st <? 300)%Z then
        match JSON_parse env response with
        | Return data => ret data
        | Throw _ => never
        end
      else
        match (let* errorData := JSON_parse env response in
               let* meta := get_prop env errorData "meta" in
               new_ApiBugReportError env meta) with
        | Return e => throw e
        | Throw _ =>
            throw (mkError Error ("Upload failed with status " ++ pretty st))
        end
  | on_error => throw (mkError Error "Network error occurred")
  end.

(** Third copy of [src/client/index.ts]: one [handleResponse] for every
    [fetch], CORS options on every request. *)
Module Cors.

Definition constructor (options : Options) : Result Client :=
  if falsy (O.apiUrl options) then
    Throw (mkError Error "API URL is required")
  else if falsy (O.appKey options) || falsy (O.appSecret options) then
    Throw (mkError Error "App credentials (App Key, App Secret) are required")
  else
    Return
      (mkClient (text_of (O.apiUrl options))
         (custom_headers options
          ∪ <["Content-Type" := "application/json"]>
             (<["X-App-Key" := text_of (O.appKey options)]>
               (<["Authorization" := "Bearer " ++ text_of (O.appSecret options)]>
                 ∅)))).

(** [this.defaultFetchOptions]; its [headers] is the very object
    [this.headers], so it is read off the instance. *)
Definition defaultFetchOptions (this : Client) : RequestInit :=
  mkInit (Some "include") (Some "cors") (headers this).

(** [{ ...init, headers }] *)
Definition with_headers (headers : gmap string string) (init : RequestInit)
  : RequestInit :=
  mkInit (init_credentials init) (init_mode init) headers.

(** The request of [fetch(url, { ...init, method, body })]. *)
Definition request (url : string) (init : RequestInit) (method : string)
    (body : Body) : Request :=
  mkRequest UseFetch method url (init_headers init) body
    (init_credentials init) (init_mode init).

Definition handleResponse (response : Response) : M JsVal :=
  if negb (ok response) then throw_mapped_error response
  else json response.

Definition submitBugReport (report : JsVal) : M JsVal :=
  validate TypesFile.BugReportSchema report;;;
  env <- ask;;
  this <- get_this;;
  body <- lift (stamped_body env report);;
  response <- fetch (request (apiUrl this ++ "/bugs/reports")
                       (defaultFetchOptions this) "POST" (TextBody body));;
  handleResponse response.

(** The [Content-Type] entry is taken out of the headers it sends. *)
Definition submitBugReportWithFile (report : JsVal) : M JsVal :=
  validate TypesFile.BugReportFileSchema report;;;
  env <- ask;;
  this <- get_this;;
  formData <- lift (form_of env report);;
  response <- fetch (request (apiUrl this ++ "/bugs/reports")
                       (with_headers (delete "Content-Type" (headers this))
                          (defaultFetchOptions this))
                       "POST" (FormBody formData));;
  handleResponse response.

(** [xhr.withCredentials = true]; every header but [Content-Type] is set. *)
Definition submitBugReportWithFileProgress (report : JsVal) : M JsVal :=
  validate TypesFile.BugReportFileSchema report;;;
  env <- ask;;
  this <- get_this;;
  formData <- lift (form_of env report);;
  ev <- xhr_send (mkRequest UseXhr "POST" (apiUrl this ++ "/bugs/reports")
                    (filter (fun kv => kv.1 ≠ "Content-Type") (headers this))
                    (FormBody formData) (Some "include") None);;
  upload_listeners ev.

Definition getBugReport (id : string) : M JsVal :=
  this <- get_this;;
  response <- fetch (request (apiUrl this ++ "/bugs/" ++ id)
                       (defaultFetchOptions this) "GET" NoBody);;
  handleResponse response.

Definition getBugTags : M JsVal :=
  this <- get_this;;
  response <- fetch (request (apiUrl this ++ "/bugs/tags")
                       (defaultFetchOptions this) "GET" NoBody);;
  handleResponse response.

End Cors.

(** The revision of [part_000], with multipart upload: paths under [/api],
    credentials without [appName]. *)
Module Upload.

Definition constructor (options : Options) : Result Client :=
  if falsy (O.apiUrl options) then
    Throw (mkError Error "API URL is required")
  else if falsy (O.appKey options) || falsy (O.appSecret options) then
    Throw (mkError Error
             "App credentials (App Name, App Key, App Secret) are required")
  else
    Return
      (mkClient (text_of (O.apiUrl options))
         (custom_headers options
          ∪ <["Content-Type" := "application/json"]>
             (<["X-App-Key" := text_of (O.appKey options)]>
               (<["Authorization" := "Bearer " ++ text_of (O.appSecret options)]>
                 ∅)))).

Definition submitBugReport (report : JsVal) : M JsVal :=
  validate TypesFile.BugReportSchema report;;;
  env <- ask;;
  this <- get_this;;
  body <- lift (stamped_body env report);;
  response <- fetch (mkRequest UseFetch "POST"
                       (apiUrl this ++ "/api/bugs/reports")
                       (headers this) (TextBody body) None None);;
  if negb (ok response) then throw_api_error response
  else json response.

Definition submitBugReportWithProgress (report : JsVal) : M JsVal :=
  validate TypesFile.BugReportSchema report;;;
  env <- ask;;
  this <- get_this;;
  body <- lift (stamped_body env report);;
  response <- fetch (mkRequest UseFetch "POST"
                       (apiUrl this ++ "/api/bugs/reports")
                       (headers this) (StreamBody body) None None);;
  if negb (ok response) then throw_api_error response
  else json response.

(** [headers: { ...this.headers, "Content-Type": "multipart/form-data" }] *)
Definition submitBugReportWithFile (report : JsVal) : M JsVal :=
  validate TypesFile.BugReportFileSchema report;;;
  env <- ask;;
  this <- get_this;;
  formData <- lift (form_of env report);;
  response <- fetch (mkRequest UseFetch "POST"
                       (apiUrl this ++ "/api/bugs/reports")
                       (<["Content-Type" := "multipart/form-data"]> (headers this))
                       (FormBody formData) None None);;
  if negb (ok response) then throw_api_error response
  else json response.

(** [this.headers["Content-Type"] = "multipart/form-data"] writes to the
    instance before the headers are copied onto the request. *)
Definition submitBugReportWithFileProgress (report : JsVal) : M JsVal :=
  validate TypesFile.BugReportFileSchema report;;;
  env <- ask;;
  formData <- lift (form_of env report);;
  this <- get_this;;
  set_headers (<["Content-Type" := "multipart/form-data"]> (headers this));;;
  this <- get_this;;
  ev <- xhr_send (mkRequest UseXhr "POST" (apiUrl this ++ "/api/bugs/reports")
                    (headers this) (FormBody formData) None None);;
  upload_listeners ev.

Definition getBugReport (id : string) : M JsVal :=
  this <- get_this;;
  response <- fetch (mkRequest UseFetch "GET"
                       (apiUrl this ++ "/api/bugs/" ++ id)
                       (headers this) NoBody None None);;
  if negb (ok response) then throw_mapped_error response
  else json response.

Definition getBugTags : M JsVal :=
  this <- get_this;;
  response <- fetch (mkRequest UseFetch "GET"
                       (apiUrl this ++ "/api/bugs/tags")
                       (headers this) NoBody None None);;
  if negb (ok response) then throw_api_error response
  else json response.

End Upload.

(** Modelled from the spec: [AppCredentialTypeError] is imported from
    [../errors] by the last revision of the client, and the revision of
    [src/errors/index.ts] that declares it is not in the snapshot.  The spec
    only says that construction without credentials fails; the error is taken
    to carry the message it is constructed with. *)
Definition new_AppCredentialTypeError (message : string) : JsError :=
  mkError AppCredentialTypeError message.

(** The revision of [part_001], whose constructor parses
    [AppCredentialsSchema]; it sets [Content-Type] per request and tracks
    JSON uploads with an [XMLHttpRequest]. *)
Module Checked.

Definition constructor (env : Env) (options : Options) : Result Client :=
  match parse env TypesFile.AppCredentialsSchema
          (JObj [("appUrl", js_of (O.apiUrl options));
                 ("appKey", js_of (O.appKey options));
                 ("appSecret", js_of (O.appSecret options))]) with
  | Throw error =>
      Throw (new_AppCredentialTypeError
               ("Failed to initialize BugReportClient: " ++ Error_toString error))
  | Return _ =>
      Return
        (mkClient (text_of (O.apiUrl options))
           (custom_headers options
            ∪ <["X-App-Key" := text_of (O.appKey options)]>
               (<["Authorization" := "Bearer " ++ text_of (O.appSecret options)]>
                 ∅)))
  end.

Definition submitBugReport (report : JsVal) : M JsVal :=
  validate TypesFile.BugReportSchema report;;;
  env <- ask;;
  this <- get_this;;
  body <- lift (stamped_body env report);;
  response <- fetch (mkRequest UseFetch "POST"
                       (apiUrl this ++ "/api/bugs/reports")
                       (<["Content-Type" := "application/json"]> (headers this))
                       (TextBody body) None None);;
  if negb (ok response) then throw_api_error response
  else json response.

(** The [onload] and [onerror] handlers of [submitBugReportWithProgress]. *)
Definition progress_listeners (ev : XhrEvent) : M JsVal :=
  env <- ask;;
  match ev with
  | on_load st responseText =>
      if (200 <=? st)%Z && (st <? 300)%Z then
        match JSON_parse env responseText with
        | Return response => ret response
        | Throw _ => throw (mkError Error "Failed to parse server response")
        end
      else
        match (let* errorData := JSON_parse env responseText in
               let* meta := get_prop env errorData "meta" in
               new_ApiBugReportError env meta) with
        | Return e => throw e
        | Throw _ =>
            throw (mkError Error ("Server returned status " ++ pretty st))
        end
  | on_error => throw (mkError Error "Network request failed")
  end.

Definition submitBugReportWithProgress (report : JsVal) : M JsVal :=
  validate TypesFile.BugReportSchema report;;;
  env <- ask;;
  this <- get_this;;
  body <- lift (stamped_body env report);;
  ev <- xhr_send (mkRequest UseXhr "POST" (apiUrl this ++ "/api/bugs/reports")
                    (<["Content-Type" := "application/json"]> (headers this))
                    (TextBody body) None None);;
  progress_listeners ev.

Definition submitBugReportWithFile (report : JsVal) : M JsVal :=
  validate TypesFile.BugReportFileSchema report;;;
  env <- ask;;
  this <- get_this;;
  formData <- lift (form_of env report);;
  response <- fetch (mkRequest UseFetch "POST"
                       (apiUrl this ++ "/api/bugs/reports")
                       (headers this) (FormBody formData) None None);;
  if negb (ok response) then throw_api_error response
  else json response.

Definition submitBugReportWithFileProgress (report : JsVal) : M JsVal :=
  validate TypesFile.BugReportFileSchema report;;;
  env <- ask;;
  this <- get_this;;
  formData <- lift (form_of env report);;
  ev <- xhr_send (mkRequest UseXhr "POST" (apiUrl this ++ "/api/bugs/reports")
                    (headers this) (FormBody formData) None None);;
  upload_listeners ev.

Definition getBugReport (id : string) : M JsVal :=
  this <- get_this;;
  response <- fetch (mkRequest UseFetch "GET"
                       (apiUrl this ++ "/api/bugs/" ++ id)
                       (<["Content-Type" := "application/json"]> (headers this))
                       NoBody None None);;
  if negb (ok response) then throw_mapped_error response
  else json response.

Definition getBugTags : M JsVal :=
  this <- get_this;;
  response <- fetch (mkRequest UseFetch "GET"
                       (apiUrl this ++ "/api/bugs/tags")
                       (<["Content-Type" := "application/json"]> (headers this))
                       NoBody None None);;
  if negb (ok response) then throw_api_error response
  else json response.

End Checked.

(** ** All revisions at once *)

Inductive Revision := RBasic | RStreamed | RCors | RUpload | RChecked.

(** A call of a public method. *)
Inductive Call :=
| SubmitBugReport (report : JsVal)
| SubmitBugReportWithProgress (report : JsVal)
| SubmitBugReportWithFile (report : JsVal)
| SubmitBugReportWithFileProgress (report : JsVal)
| GetBugReport (id : string)
| GetBugTags.

(** [new BugReportClient(options)] in each revision. *)
Definition construct (env : Env) (rev : Revision) (options : Options) : Result Client :=
  match rev with
  | RBasic => Basic.constructor options
  | RStreamed => Streamed.constructor options
  | RCors => Cors.constructor options
  | RUpload => Upload.constructor options
  | RChecked => Checked.constructor env options
  end.

(** The method a call reaches, where the revision has it.  The first two
    revisions import nothing that tells the two schema modules apart, so they
    take the schema revision as an argument; the others import
    [BugReportFileSchema] and are built against the later one. *)
Definition invoke (types : TypesRevision) (rev : Revision) (call : Call)
  : option (M JsVal) :=
  match rev, call with
  | RBasic, SubmitBugReport report => Some (Basic.submitBugReport types report)
  | RBasic, GetBugReport id => Some (Basic.getBugReport id)
  | RBasic, _ => None
  | RStreamed, SubmitBugReport report => Some (Streamed.submitBugReport types report)
  | RStreamed, SubmitBugReportWithProgress report =>
      Some (Streamed.submitBugReportWithProgress types report)
  | RStreamed, GetBugReport id => Some (Streamed.getBugReport id)
  | RStreamed, GetBugTags => Some Streamed.getBugTags
  | RStreamed, _ => None
  | RCors, SubmitBugReport report => Some (Cors.submitBugReport report)
  | RCors, SubmitBugReportWithProgress _ => None
  | RCors, SubmitBugReportWithFile report => Some (Cors.submitBugReportWithFile report)
  | RCors, SubmitBugReportWithFileProgress report =>
      Some (Cors.submitBugReportWithFileProgress report)
  | RCors, GetBugReport id => Some (Cors.getBugReport id)
  | RCors, GetBugTags => Some Cors.getBugTags
  | RUpload, SubmitBugReport report => Some (Upload.submitBugReport report)
  | RUpload, SubmitBugReportWithProgress report =>
      Some (Upload.submitBugReportWithProgress report)
  | RUpload, SubmitBugReportWithFile report =>
      Some (Upload.submitBugReportWithFile report)
  | RUpload, SubmitBugReportWithFileProgress report =>
      Some (Upload.submitBugReportWithFileProgress report)
  | RUpload, GetBugReport id => Some (Upload.getBugReport id)
  | RUpload, GetBugTags => Some Upload.getBugTags
  | RChecked, SubmitBugReport report => Some (Checked.submitBugReport report)
  | RChecked, SubmitBugReportWithProgress report =>
      Some (Checked.submitBugReportWithProgress report)
  | RChecked, SubmitBugReportWithFile report =>
      Some (Checked.submitBugReportWithFile report)
  | RChecked, SubmitBugReportWithFileProgress report =>
      Some (Checked.submitBugReportWithFileProgress report)
  | RChecked, GetBugReport id => Some (Checked.getBugReport id)
  | RChecked, GetBugTags => Some Checked.getBugTags
  end.

(** The schema a call's payload is parsed with, and the payload. *)
Definition payload (types : TypesRevision) (rev : Revision) (call : Call)
  : option (Schema * JsVal) :=
  match call with
  | SubmitBugReport report | SubmitBugReportWithProgress report =>
      Some (match rev with
            | RBasic | RStreamed => BugReportSchema_of types
            | _ => TypesFile.BugReportSchema
            end, report)
  | SubmitBugReportWithFile report | SubmitBugReportWithFileProgress report =>
      Some (TypesFile.BugReportFileSchema, report)
  | GetBugReport _ | GetBugTags => None
  end.

(** The payload of a call passes the schema its method parses it with
    (nothing to pass for the two retrieval methods). *)
Definition call_valid (env : Env) (types : TypesRevision) (rev : Revision)
    (call : Call) : Prop :=
  match payload types rev call with
  | Some (schema, report) => accepts env schema report = true
  | None => True
  end.

(** The revisions whose constructor asks for [appName]. *)
Definition requires_appName (rev : Revision) : bool :=
  match rev with
  | RBasic | RStreamed => true
  | _ => false
  end.

(** The API URL or a required credential is absent or empty. *)
Definition missing_credentials (rev : Revision) (options : Options) : bool :=
  falsy (O.apiUrl options)
  || (requires_appName rev && falsy (O.appName options))
  || falsy (O.appKey options)
  || falsy (O.appSecret options).

(** The methods whose non-2xx branch tests [response.status === 404]:
    [getBugReport] everywhere, and every [fetch] of the [handleResponse]
    revision. *)
Definition singles_out_404 (rev : Revision) (call : Call) : bool :=
  match call, rev with
  | GetBugReport _, _ => true
  | SubmitBugReportWithFileProgress _, _ => false
  | _, RCors => true
  | _, _ => false
  end.

(** The methods that send through an [XMLHttpRequest]. *)
Definition uses_xhr (rev : Revision) (call : Call) : bool :=
  match call, rev with
  | SubmitBugReportWithFileProgress _, _ => true
  | SubmitBugReportWithProgress _, RChecked => true
  | _, _ => false
  end.

(** The message of the [error] listener of an XHR method. *)
Definition xhr_failure_message (call : Call) : string :=
  match call with
  | SubmitBugReportWithProgress _ => "Network request failed"
  | _ => "Network error occurred"
  end.

(** The methods that hand [this.headers] to the transport as it is. *)
Definition sends_instance_headers (rev : Revision) (call : Call) : bool :=
  match rev, call with
  | RChecked, (SubmitBugReportWithFile _ | SubmitBugReportWithFileProgress _) => true
  | RChecked, _ => false
  | (RCors | RUpload), (SubmitBugReportWithFile _ | SubmitBugReportWithFileProgress _) =>
      false
  | _, _ => true
  end.

(** What the constructor of a revision puts under a header name when the
    caller's [headers] option has no entry for it. *)
Definition default_header (rev : Revision) (options : Options) (k : string)
  : option string :=
  if String.eqb k "Content-Type" then
    match rev with
    | RChecked => None
    | _ => Some "application/json"
    end
  else if String.eqb k "X-App-Name" then
    if requires_appName rev then Some (text_of (O.appName options)) else None
  else if String.eqb k "X-App-Key" then Some (text_of (O.appKey options))
  else if String.eqb k "Authorization" then
    Some ("Bearer " ++ text_of (O.appSecret options))
  else None.

(** The text of a request body, when it is text. *)
Definition body_text (b : Body) : option string :=
  match b with
  | TextBody text | StreamBody text => Some text
  | _ => None
  end.

(** The error [validate] raises for a payload the schema refuses: a plain
    [Error] whose message ends with the message of the [ZodError]. *)
Definition validation_error (env : Env) (schema : Schema) (report : JsVal) : JsError :=
  mkError Error ("Invalid bug report data: " ++ ZodError_message env schema report).

(** [schema.options]: the values of an enum schema. *)
Definition z_options (schema : Schema) : list string :=
  match schema with
  | z_enum values | z_nativeEnum values => values
  | _ => []
  end.

(** The payload breaks one of the bounds the schema puts on [title],
    [description] and [tags]. *)
Definition out_of_bounds (report : JsVal) : Prop :=
  (exists title, prop report "title" = JStr title
                 /\ (title = EmptyString \/ 200 < js_length title))
  \/ prop report "description" = JStr EmptyString
  \/ (exists items tag, prop report "tags" = JArr items
                        /\ In (JStr tag) items
                        /\ ~ In tag (z_options TypesFile.BugTagSchema)).

(** The payload keeps those bounds and names a severity of the enum. *)
Definition within_bounds (report : JsVal) : Prop :=
  exists title description severity tags,
    prop report "title" = JStr title
    /\ 1 <= js_length title <= 200
    /\ prop report "description" = JStr description
    /\ 1 <= js_length description
    /\ prop report "severity" = JStr severity
    /\ In severity TypesFile.BugSeverity
    /\ prop report "tags" = JArr (map JStr tags)
    /\ Forall (fun tag => In tag (z_options TypesFile.BugTagSchema)) tags.

(** The optional properties of [type BugReport], when present, have the
    type it gives them: [file?: string[]], [createdAt?: Date]. *)
Definition optional_fields_typed (report : JsVal) : Prop :=
  (prop report "file" = JUndefined
   \/ exists names, prop report "file" = JArr (map JStr names))
  /\ (prop report "createdAt" = JUndefined
      \/ exists ms, prop report "createdAt" = JDate ms).

(** [quiet m]: running [m] sends no request and leaves the instance as it
    was. *)
Definition quiet {A} (m : M A) : Prop :=
  forall env this, sent (m env this) = [] /\ final (m env this) = this.

(** ** Test doubles

    A network that answers every request the same way and a [JSON.parse] that
    yields a prepared value, as the mocked [fetch] of
    [src/__tests__/client.test.ts] does; a plain serializer stands in for
    [JSON.stringify]. *)
Module Mock.

Definition quote : string := String (Ascii.ascii_of_nat 34) EmptyString.

Fixpoint show (v : JsVal) : string :=
  match v with
  | JUndefined => "undefined"
  | JNull => "null"
  | JBool true => "true"
  | JBool false => "false"
  | JNum n => pretty n
  | JStr s => quote ++ s ++ quote
  | JDate ms => "Date(" ++ pretty ms ++ ")"
  | JInvalidDate => "null"
  | JFile f => quote ++ file_name f ++ quote
  | JArr items => "[" ++ String.concat "," (map show items) ++ "]"
  | JObj fields =>
      "{" ++ String.concat ","
               (map (fun kv => quote ++ kv.1 ++ quote ++ ":" ++ show kv.2) fields)
          ++ "}"
  end.

Definition env (net : NetOutcome) (parsed : Result JsVal) : Env :=
  mkEnv (fun _ => net) 1700000000000 show (fun _ => parsed)
    (fun ms => pretty ms) (fun s => String.prefix "http" s)
    (fun _ _ => "[issues]").

Definition mockCredentials : Options :=
  O.mk (Some "https://api.test.com") (Some "TestApp") (Some "test-key")
    (Some "test-secret") None.

Definition withCustomHeaders (h : gmap string string) : Options :=
  O.mk (Some "https://api.test.com") (Some "TestApp") (Some "test-key")
    (Some "test-secret") (Some h).

Definition mockBugReport : JsVal :=
  JObj [("title", JStr "Test Bug");
        ("description", JStr "This is a test bug report");
        ("severity", JStr "HIGH");
        ("tags", JArr [JStr "UI"; JStr "FUNCTIONALITY"])].

Definition datedBugReport : JsVal :=
  JObj [("title", JStr "Test Bug");
        ("description", JStr "This is a test bug report");
        ("severity", JStr "HIGH");
        ("tags", JArr [JStr "UI"; JStr "FUNCTIONALITY"]);
        ("createdAt", JDate 1600000000000)].

Definition invalidBugReport : JsVal :=
  JObj [("title", JStr EmptyString);
        ("description", JStr EmptyString);
        ("severity", JStr "INVALID")].

Definition screenshot : File := mkFile "screen.png" "image/png" 2048.

Definition fileBugReport (files : list File) : JsVal :=
  JObj [("title", JStr "Test Bug");
        ("description", JStr "This is a test bug report");
        ("severity", JStr "HIGH");
        ("tags", JArr [JStr "UI"]);
        ("file", JArr (map JFile files))].

Definition errorBody (code : Z) (message : string) : JsVal :=
  JObj [("meta", JObj [("code", JNum code); ("status", JStr "error");
                       ("message", JStr message)])].

Definition successBody : JsVal :=
  JObj [("meta", JObj [("code", JNum 200); ("status", JStr "success");
                       ("message", JStr "Bug report submitted")]);
        ("data", JObj [("id", JStr "123"); ("status", JStr "SUBMITTED");
                       ("createdAt", JStr "2026-01-01T00:00:00.000Z")])].

(** The instance [new BugReportClient(options)] yields, or an empty one
    where the constructor throws. *)
Definition client (rev : Revision) (options : Options) : Client :=
  match construct (env (Responded 200 "ok") (Return successBody)) rev options with
  | Return this => this
  | Throw _ => mkClient EmptyString ∅
  end.

Definition refused : JsError :=
  mkError TypeError "Failed to fetch".

(** A network that is down, failing the way node-fetch words it. *)
Definition offline : Env :=
  mkEnv (fun req =>
           Failed (mkError (HostError "FetchError")
                     ("request to " ++ url req ++ " failed, reason: ECONNREFUSED")))
    1700000000000 show (fun _ => Return successBody)
    (fun ms => pretty ms) (fun s => String.prefix "http" s)
    (fun _ _ => "[issues]").

Definition unreachable : JsError :=
  mkError (HostError "FetchError")
    "request to https://api.test.com/bugs/123 failed, reason: ECONNREFUSED".

End Mock.

(** ** Vocabulary of the further properties *)

(** The path prefix of a revision: the two last ones serve under [/api]. *)
Definition base_path (rev : Revision) : string :=
  match rev with
  | RUpload | RChecked => "/api"
  | _ => EmptyString
  end.

(** The path a call is sent to, below the prefix. *)
Definition endpoint (call : Call) : string :=
  match call with
  | GetBugReport id => "/bugs/" ++ id
  | GetBugTags => "/bugs/tags"
  | _ => "/bugs/reports"
  end.

(** The HTTP method of a call. *)
Definition verb (call : Call) : string :=
  match call with
  | GetBugReport _ | GetBugTags => "GET"
  | _ => "POST"
  end.

(** The payload of a call passes its schema, as a boolean (a retrieval has
    nothing to pass). *)
Definition call_validb (env : Env) (types : TypesRevision) (rev : Revision)
    (call : Call) : bool :=
  match payload types rev call with
  | Some (schema, report) => accepts env schema report
  | None => true
  end.

(** The one method that writes to the instance. *)
Definition writes_headers (rev : Revision) (call : Call) : bool :=
  match rev, call with
  | RUpload, SubmitBugReportWithFileProgress _ => true
  | _, _ => false
  end.

(** The message the [load] listener of an XHR method falls back to when the
    error body cannot be used. *)
Definition xhr_status_message (call : Call) (st : Z) : string :=
  match call with
  | SubmitBugReportWithProgress _ => "Server returned status " ++ pretty st
  | _ => "Upload failed with status " ++ pretty st
  end.

(** The classes [src/errors/index.ts] declares for failed API calls. *)
Definition is_api_class (c : ErrorClass) : bool :=
  match c with
  | ApiBugReportError | NotFoundBugReportError => true
  | _ => false
  end.

(** The errors of the platform (a failed transport, a failed [JSON.parse])
    are not instances of the package's API error classes. *)
Definition foreign_platform_errors (env : Env) : Prop :=
  (forall req e, transport env req = Failed e -> is_api_class (err_class e) = false)
  /\ (forall text e, JSON_parse env text = Throw e -> is_api_class (err_class e) = false).

(** The MIME types [BugReportFileSchema] lets through. *)
Definition image_types : list string := ["image/png"; "image/jpeg"; "image/jpg"].

(** The [file] property is a list of files of an allowed type and
    [createdAt], when present, is a date: what [BugReportFileSchema] asks
    beyond the bounds on the text fields. *)
Definition upload_fields_typed (report : JsVal) : Prop :=
  (exists files, prop report "file" = JArr (map JFile files)
                 /\ Forall (fun file => In (file_type file) image_types) files)
  /\ (prop report "createdAt" = JUndefined
      \/ exists ms, prop report "createdAt" = JDate ms).

(** What the earlier [BugReportSchema] asks of its optional properties. *)
Definition earlier_fields_typed (report : JsVal) : Prop :=
  (prop report "image" = JUndefined \/ exists s, prop report "image" = JStr s)
  /\ (prop report "metadata" = JUndefined
      \/ is_object (prop report "metadata") = true)
  /\ (prop report "createdAt" = JUndefined
      \/ exists ms, prop report "createdAt" = JDate ms).

(** [template_text v s]: a template literal renders the primitive [v] as
    [s].  Numbers are the integers that print in full, those below 10^21 in
    magnitude. *)
Inductive template_text : JsVal -> string -> Prop :=
| text_of_undefined : template_text JUndefined "undefined"
| text_of_null : template_text JNull "null"
| text_of_true : template_text (JBool true) "true"
| text_of_false : template_text (JBool false) "false"
| text_of_number n : (Z.abs n < 10 ^ 21)%Z -> template_text (JNum n) (pretty n)
| text_of_string s : template_text (JStr s) s.

(** [error.message] of the error a promise was rejected with. *)
Definition err_message_of {A} (c : Completion A) : option string :=
  match c with
  | Rejected e => Some (err_message e)
  | _ => None
  end.

(** What a request puts on the wire, leaving aside how the body is fed to
    the transport (at once or as a stream) and the CORS options. *)
Definition wire (req : Request) : string * string * gmap string string * Body :=
  (method req, url req, req_headers req,
   match body req with
   | StreamBody text => TextBody text
   | b => b
   end).

(** * Properties *)

(** ** Laws of the client monad *)

Section Laws.
Context {A B : Type}.
Variables (env : Env) (this : Client).

Lemma run_eta (r : Run A) : mkRun (final r) (sent r) (outcome r) = r.
Proof. by destruct r. Qed.

Lemma bind_ret (a : A) (k : A -> M B) : bind (ret a) k env this = k a env this.
Proof. unfold bind, ret; simpl. by destruct (k a env this). Qed.

Lemma bind_throw (e : JsError) (k : A -> M B) :
  bind (throw e) k env this = mkRun this [] (Rejected e).
Proof. reflexivity. Qed.

Lemma bind_never (k : A -> M B) :
  bind never k env this = mkRun this [] Pending.
Proof. reflexivity. Qed.

Lemma bind_ask (k : Env -> M B) : bind ask k env this = k env env this.
Proof. unfold bind, ask; simpl. by destruct (k env env this). Qed.

Lemma bind_get_this (k : Client -> M B) :
  bind get_this k env this = k this env this.
Proof. unfold bind, get_this; simpl. by destruct (k this env this). Qed.

Lemma bind_lift_Return (a : A) (k : A -> M B) :
  bind (lift (Return a)) k env this = k a env this.
Proof. apply bind_ret. Qed.

Lemma bind_lift_Throw (e : JsError) (k : A -> M B) :
  bind (lift (Throw e)) k env this = mkRun this [] (Rejected e).
Proof. reflexivity. Qed.

End Laws.

Lemma bind_set_headers {B} env this h (k : unit -> M B) :
  bind (set_headers h) k env this = k tt env (mkClient (apiUrl this) h).
Proof. unfold bind, set_headers; simpl. by destruct (k tt env _). Qed.

Lemma bind_fetch {B} env this req (k : Response -> M B) :
  bind (fetch req) k env this =
  match transport env req with
  | Responded st text =>
      let r := k (mkResponse st text) env this in
      mkRun (final r) (req :: sent r) (outcome r)
  | Failed e => mkRun this [req] (Rejected e)
  end.
Proof. unfold bind, fetch; simpl. by destruct (transport env req). Qed.

Lemma bind_xhr_send {B} env this req (k : XhrEvent -> M B) :
  bind (xhr_send req) k env this =
  let r := k match transport env req with
             | Responded st text => on_load st text
             | Failed _ => on_error
             end env this in
  mkRun (final r) (req :: sent r) (outcome r).
Proof. reflexivity. Qed.

Lemma bind_json {B} env this st text data (k : JsVal -> M B) :
  JSON_parse env text = Return data ->
  bind (json (mkResponse st text)) k env this = k data env this.
Proof.
  intros Hparse. unfold json, bind, ask; simpl. rewrite Hparse; simpl.
  by destruct (k data env this).
Qed.

Lemma bind_validate_ok {B} env this schema report (k : unit -> M B) :
  accepts env schema report = true ->
  bind (validate schema report) k env this = k tt env this.
Proof.
  intros Hok. unfold validate, bind, ask, parse; simpl. rewrite Hok; simpl.
  by destruct (k tt env this).
Qed.

Lemma bind_validate_fail {B} env this schema report (k : unit -> M B) :
  accepts env schema report = false ->
  bind (validate schema report) k env this =
  mkRun this [] (Rejected (validation_error env schema report)).
Proof.
  intros Hno. unfold validate, bind, ask, parse; simpl. by rewrite Hno.
Qed.

Ltac unfold_methods :=
  unfold Basic.submitBugReport, Basic.getBugReport,
    Streamed.submitBugReport, Streamed.submitBugReportWithProgress,
    Streamed.getBugReport, Streamed.getBugTags,
    Cors.submitBugReport, Cors.submitBugReportWithFile,
    Cors.submitBugReportWithFileProgress, Cors.getBugReport, Cors.getBugTags,
    Cors.handleResponse,
    Upload.submitBugReport, Upload.submitBugReportWithProgress,
    Upload.submitBugReportWithFile, Upload.submitBugReportWithFileProgress,
    Upload.getBugReport, Upload.getBugTags,
    Checked.submitBugReport, Checked.submitBugReportWithProgress,
    Checked.submitBugReportWithFile, Checked.submitBugReportWithFileProgress,
    Checked.getBugReport, Checked.getBugTags in *.

(** Case analysis on the revision and the call, keeping the methods that
    exist. *)
Ltac each_method Hm :=
  match type of Hm with
  | invoke _ ?rev ?call = Some _ =>
      destruct rev; try (is_var call; destruct call);
      simpl in Hm; try discriminate Hm;
      injection Hm as <-; unfold_methods
  end.

Lemma validation_failure_run types rev call m schema report env this :
  invoke types rev call = Some m ->
  payload types rev call = Some (schema, report) ->
  accepts env schema report = false ->
  m env this = mkRun this [] (Rejected (validation_error env schema report)).
Proof.
  intros Hm Hp Hno.
  each_method Hm; simpl in Hp; try discriminate Hp;
    injection Hp as <- <-; by apply bind_validate_fail.
Qed.

(** C2.  A payload that the schema of its method refuses ([BugReportSchema]
    for [submitBugReport] and [submitBugReportWithProgress],
    [BugReportFileSchema] for the two upload methods) ends every submission
    method, in every revision, before anything is sent: the instance is
    untouched, no request went out, and the promise is rejected with a plain
    [Error] whose message is ["Invalid bug report data: "] followed by the
    text of the [ZodError]. *)
Theorem invalid_payload_sends_nothing types rev call m schema report env this :
  invoke types rev call = Some m ->
  payload types rev call = Some (schema, report) ->
  accepts env schema report = false ->
  final (m env this) = this
  /\ sent (m env this) = []
  /\ outcome (m env this) = Rejected (validation_error env schema report)
  /\ err_class (validation_error env schema report) = Error.
Proof.
  intros Hm Hp Hno.
  by rewrite (validation_failure_run _ _ _ _ _ _ env this Hm Hp Hno).
Qed.

(** [z.object] checks every key of its shape against the property of that
    name. *)
Lemma accepts_object env shape v :
  accepts env (z_object shape) v
  = is_object v && forallb (fun ks => accepts env ks.2 (prop v ks.1)) shape.
Proof.
  cbn [accepts]. f_equal.
  induction shape as [|[k s] rest IH]; [reflexivity|].
  cbn [forallb fst snd]. by rewrite <- IH.
Qed.

Lemma falsy_js_of_string s c env :
  falsy s = true -> string_check env EmptyString c = false ->
  accepts env (z_string [c]) (js_of s) = false.
Proof.
  intros Hs Hc. destruct s as [[|]|]; try discriminate; cbn; [|done].
  by rewrite Hc.
Qed.

(** C3.  When the API URL or a required credential ([appName] in the
    revisions that have it, [appKey], [appSecret]) is absent or the empty
    string, the constructor of every revision throws: it yields an error and
    no instance. *)
Theorem constructor_requires_credentials env rev options :
  missing_credentials rev options = true ->
  exists e, construct env rev options = Throw e.
Proof.
  unfold missing_credentials. intros Hmiss.
  destruct rev; simpl in *;
    unfold Basic.constructor, Streamed.constructor, Cors.constructor,
      Upload.constructor, Checked.constructor.
  1-4: destruct (falsy (O.apiUrl options)); [eauto|];
       destruct (falsy (O.appName options)), (falsy (O.appKey options)),
         (falsy (O.appSecret options)); simpl in *; eauto; discriminate.
  unfold parse, TypesFile.AppCredentialsSchema.
  rewrite accepts_object. cbn [forallb fst snd is_object andb].
  change (prop _ "appUrl") with (js_of (O.apiUrl options)).
  change (prop _ "appKey") with (js_of (O.appKey options)).
  change (prop _ "appSecret") with (js_of (O.appSecret options)).
  destruct (falsy (O.apiUrl options)) eqn:Hu.
  { rewrite (falsy_js_of_string _ is_url) by done. eauto. }
  destruct (falsy (O.appKey options)) eqn:Hk.
  { rewrite (falsy_js_of_string (O.appKey options) (min 5)) by done.
    rewrite andb_false_r. eauto. }
  destruct (falsy (O.appSecret options)) eqn:Hs; [|discriminate].
  rewrite (falsy_js_of_string (O.appSecret options) (min 5)) by done.
  rewrite !andb_false_r. eauto.
Qed.

(** ** What a valid payload looks like *)

Lemma accepts_object_field env shape v k s :
  accepts env (z_object shape) v = true -> In (k, s) shape ->
  accepts env s (prop v k) = true.
Proof.
  rewrite accepts_object. intros [_ Hall]%andb_prop Hin.
  rewrite forallb_forall in Hall. apply (Hall (k, s) Hin).
Qed.

(** A value with a required string property is a plain object. *)
Lemma accepts_object_JObj env shape v k checks :
  accepts env (z_object shape) v = true -> In (k, z_string checks) shape ->
  exists fields, v = JObj fields.
Proof.
  intros Hok Hin. pose proof (accepts_object_field _ _ _ _ _ Hok Hin) as Hk.
  rewrite accepts_object in Hok. apply andb_prop in Hok as [Hobj _].
  destruct v; try discriminate Hobj; [discriminate Hk | eauto].
Qed.

Lemma valid_report_JObj env types report :
  accepts env (BugReportSchema_of types) report = true ->
  exists fields, report = JObj fields.
Proof.
  intros Hok.
  destruct types; eapply (accepts_object_JObj _ _ _ "title");
    first [exact Hok | simpl; eauto].
Qed.

Lemma valid_file_report_JObj env report :
  accepts env TypesFile.BugReportFileSchema report = true ->
  exists fields, report = JObj fields.
Proof.
  intros Hok.
  eapply (accepts_object_JObj _ _ _ "title"); first [exact Hok | simpl; eauto].
Qed.

Lemma accepts_array env element at_least v :
  accepts env (z_array element at_least) v = true ->
  exists items, v = JArr items /\ forallb (accepts env element) items = true
    /\ match at_least with
       | Some n => n <= length items
       | None => True
       end.
Proof.
  destruct v; try discriminate. intros Hok. exists items.
  change (forallb (accepts env element) items
          && match at_least with
             | Some n => Nat.leb n (length items)
             | None => true
             end = true) in Hok.
  apply andb_prop in Hok as [Hall Hmin]. repeat split; [done|].
  destruct at_least; [by apply Nat.leb_le | done].
Qed.

Lemma accepts_files_inv env refine items :
  forallb (accepts env (z_instanceof_File refine)) items = true ->
  exists files, items = map JFile files /\ forallb refine files = true.
Proof.
  induction items as [|x items IH]; intros Hall.
  - by exists [].
  - cbn [forallb] in Hall. apply andb_prop in Hall as [Hx Hrest].
    destruct (IH Hrest) as (files & -> & Hfiles).
    destruct x; try discriminate Hx. exists (f :: files). split; [done|].
    cbn [forallb]. cbn in Hx. by rewrite Hx.
Qed.

(** The [file] property of a valid upload payload is an array of files. *)
Lemma valid_file_report_files env report :
  accepts env TypesFile.BugReportFileSchema report = true ->
  exists files, prop report "file" = JArr (map JFile files).
Proof.
  intros Hok.
  eapply (accepts_object_field _ _ _ "file") in Hok; [|simpl; eauto 10].
  apply accepts_array in Hok as (items & -> & Hall & _).
  destruct (accepts_files_inv _ _ _ Hall) as (files & -> & _). eauto.
Qed.

Lemma stamped_body_JObj env fields :
  stamped_body env (JObj fields)
  = Return (JSON_stringify env
              (JObj (set_field "createdAt"
                       (nullish (prop (JObj fields) "createdAt") (JDate (Date_now env)))
                       fields))).
Proof. reflexivity. Qed.

Lemma form_of_JObj env fields files :
  prop (JObj fields) "file" = JArr files ->
  form_of env (JObj fields)
  = Return ([("title", prop (JObj fields) "title");
             ("description", prop (JObj fields) "description");
             ("severity", prop (JObj fields) "severity");
             ("tags", JStr (JSON_stringify env (prop (JObj fields) "tags")))]
            ++ map (fun file => ("file", file)) files)%list.
Proof. intros Hfile. unfold form_of. cbn [get_prop and_then]. by rewrite Hfile. Qed.

(** ** Running a method *)

(** Rewrites a run up to (and including) the request it sends. *)
Ltac step :=
  repeat first
    [ rewrite bind_ask | rewrite bind_get_this | rewrite bind_set_headers
    | rewrite bind_lift_Return | rewrite bind_ret
    | rewrite stamped_body_JObj | rewrite bind_fetch | rewrite bind_xhr_send ].

(** Splits on the method, discharges validation, and exposes the payload
    as an object (with its files, for the upload methods). *)
Ltac open_payload Hvalid :=
  try (let fields := fresh "fields" in
       let files := fresh "files" in
       let Hfiles := fresh "Hfiles" in
       first
         [ destruct (valid_file_report_files _ _ Hvalid) as [files Hfiles];
           destruct (valid_file_report_JObj _ _ Hvalid) as [fields ->];
           rewrite !bind_ask, ?bind_get_this, (form_of_JObj _ _ _ Hfiles)
         | destruct (valid_report_JObj _ _ _ Hvalid) as [fields ->]
         | destruct (valid_report_JObj _ FileTypes _ Hvalid) as [fields ->] ]);
  step.

Ltac enter Hm Hvalid :=
  each_method Hm; unfold call_valid in Hvalid; cbn [payload] in Hvalid;
  try (rewrite (bind_validate_ok _ _ _ _ _ Hvalid));
  open_payload Hvalid.

(** The same without a validity hypothesis: an invalid payload ends the run
    at once. *)
Ltac enter_any Hm :=
  each_method Hm;
  try match goal with
      | |- context [bind (validate ?schema ?report) _ ?env _] =>
          let Hvalid := fresh "Hvalid" in
          destruct (accepts env schema report) eqn:Hvalid;
          [ rewrite (bind_validate_ok _ _ _ _ _ Hvalid); open_payload Hvalid
          | rewrite (bind_validate_fail _ _ _ _ _ Hvalid) ]
      end;
  step.

(** C8.  When the network answers the request of a method with a status in
    200-299 and a body that parses as JSON, the promise of the method is
    fulfilled with exactly the parsed body. *)
Theorem success_body_passed_through types rev call m env this st text data :
  invoke types rev call = Some m ->
  call_valid env types rev call ->
  (forall req, transport env req = Responded st text) ->
  (200 <= st <= 299)%Z ->
  JSON_parse env text = Return data ->
  outcome (m env this) = Fulfilled data.
Proof.
  intros Hm Hvalid Hnet Hst Hparse.
  assert (ok (mkResponse st text) = true) as Hok by (unfold ok; simpl; lia).
  assert ((200 <=? st)%Z && (st <? 300)%Z = true) as Hxhr by lia.
  enter Hm Hvalid; rewrite Hnet; cbn [final sent outcome];
    unfold upload_listeners, Checked.progress_listeners;
    rewrite ?bind_ask, ?Hok, ?Hxhr, ?Hparse; cbn [negb];
    unfold json; rewrite ?bind_ask; cbn [response_text]; rewrite ?Hparse;
    reflexivity.
Qed.

(** ** The error envelope *)

Lemma prop_defined_JObj v k :
  prop v k <> JUndefined -> exists fields, v = JObj fields.
Proof. destruct v; simpl; try congruence; eauto. Qed.

Lemma get_prop_JObj env fields k :
  get_prop env (JObj fields) k = Return (prop (JObj fields) k).
Proof. reflexivity. Qed.

Section ErrorEnvelope.
Variables (env : Env) (data meta : JsVal) (code : Z) (message : string).
Hypothesis Hmeta : prop data "meta" = meta.
Hypothesis Hcode : prop meta "code" = JNum code.
Hypothesis Hmessage : prop meta "message" = JStr message.

Lemma envelope_meta : get_prop env data "meta" = Return meta.
Proof.
  destruct (prop_defined_JObj meta "code") as [mfields Hm]; [congruence|].
  destruct (prop_defined_JObj data "meta") as [fields ->]; [congruence|].
  by rewrite get_prop_JObj, Hmeta.
Qed.

Lemma new_ApiBugReportError_envelope :
  new_ApiBugReportError env meta
  = Return (mkError ApiBugReportError
              ("API Error [" ++ pretty code ++ "]: " ++ message)).
Proof.
  destruct (prop_defined_JObj meta "code") as [mfields ->]; [congruence|].
  unfold new_ApiBugReportError. rewrite !get_prop_JObj. cbn [and_then].
  by rewrite Hcode, Hmessage.
Qed.

Lemma new_NotFoundBugReportError_envelope :
  new_NotFoundBugReportError env meta
  = Return (mkError NotFoundBugReportError
              ("Not Found Error [" ++ pretty code ++ "]: " ++ message)).
Proof.
  destruct (prop_defined_JObj meta "code") as [mfields ->]; [congruence|].
  unfold new_NotFoundBugReportError. rewrite !get_prop_JObj. cbn [and_then].
  by rewrite Hcode, Hmessage.
Qed.

Variables (this : Client) (st : Z) (text : string).
Hypothesis Hparse : JSON_parse env text = Return data.

Lemma throw_api_error_run :
  throw_api_error (A := JsVal) (mkResponse st text) env this
  = mkRun this []
      (Rejected (mkError ApiBugReportError
                   ("API Error [" ++ pretty code ++ "]: " ++ message))).
Proof.
  unfold throw_api_error. rewrite bind_ask, (bind_json _ _ _ _ _ _ Hparse).
  rewrite envelope_meta, bind_lift_Return.
  by rewrite new_ApiBugReportError_envelope, bind_lift_Return.
Qed.

Lemma throw_mapped_error_run :
  throw_mapped_error (A := JsVal) (mkResponse st text) env this
  = mkRun this []
      (Rejected
         (if (st =? 404)%Z then
            mkError NotFoundBugReportError
              ("Not Found Error [" ++ pretty code ++ "]: " ++ message)
          else
            mkError ApiBugReportError
              ("API Error [" ++ pretty code ++ "]: " ++ message))).
Proof.
  unfold throw_mapped_error. rewrite bind_ask, (bind_json _ _ _ _ _ _ Hparse).
  rewrite envelope_meta, bind_lift_Return. cbn [status].
  destruct (st =? 404)%Z.
  - by rewrite new_NotFoundBugReportError_envelope, bind_lift_Return.
  - by rewrite new_ApiBugReportError_envelope, bind_lift_Return.
Qed.

Lemma listener_envelope :
  (let* errorData := JSON_parse env text in
   let* meta := get_prop env errorData "meta" in
   new_ApiBugReportError env meta)
  = Return (mkError ApiBugReportError
              ("API Error [" ++ pretty code ++ "]: " ++ message)).
Proof.
  rewrite Hparse. cbn [and_then]. rewrite envelope_meta. cbn [and_then].
  apply new_ApiBugReportError_envelope.
Qed.

End ErrorEnvelope.


(** C6, amended.  When the transport fails, a method that sends through an
    [XMLHttpRequest] rejects with a plain [Error] whose message is fixed
    (["Network error occurred"] for [submitBugReportWithFileProgress],
    ["Network request failed"] for the XHR [submitBugReportWithProgress]);
    a method that sends through [fetch] rejects with the very error [fetch]
    rejected with. *)
Theorem transport_failure_mapping types rev call m env this e :
  invoke types rev call = Some m ->
  call_valid env types rev call ->
  (forall req, transport env req = Failed e) ->
  outcome (m env this)
  = Rejected (if uses_xhr rev call
              then mkError Error (xhr_failure_message call)
              else e).
Proof.
  intros Hm Hvalid Hnet.
  enter Hm Hvalid; rewrite Hnet; reflexivity.
Qed.

(** ** Code that neither sends nor writes *)

Lemma quiet_ret {A} (a : A) : quiet (ret a).
Proof. by intros env this. Qed.

Lemma quiet_throw {A} e : quiet (throw (A := A) e).
Proof. by intros env this. Qed.

Lemma quiet_never {A} : quiet (never (A := A)).
Proof. by intros env this. Qed.

Lemma quiet_ask : quiet ask.
Proof. by intros env this. Qed.

Lemma quiet_lift {A} (r : Result A) : quiet (lift r).
Proof. by destruct r. Qed.

Lemma quiet_bind {A B} (m : M A) (k : A -> M B) :
  quiet m -> (forall a, quiet (k a)) -> quiet (bind m k).
Proof.
  intros Hm Hk env this. destruct (Hm env this) as [Hs Hf].
  unfold bind. destruct (outcome (m env this)) as [a| |]; cbn [sent final];
    rewrite ?Hs, ?Hf; try done.
  destruct (Hk a env this) as [Hs' Hf']. by rewrite Hs', Hf'.
Qed.

Lemma quiet_if {A} (b : bool) (m1 m2 : M A) :
  quiet m1 -> quiet m2 -> quiet (if b then m1 else m2).
Proof. by destruct b. Qed.

Ltac solve_quiet :=
  repeat first
    [ apply quiet_ret | apply quiet_throw | apply quiet_never | apply quiet_ask
    | apply quiet_lift | apply quiet_if
    | apply quiet_bind; [|intros ?]
    | match goal with
      | |- quiet (match ?x with _ => _ end) => destruct x
      end ].

Lemma quiet_json response : quiet (json response).
Proof. unfold json. solve_quiet. Qed.

Lemma quiet_throw_api_error {A} response : quiet (throw_api_error (A := A) response).
Proof. unfold throw_api_error, json. solve_quiet. Qed.

Lemma quiet_throw_mapped_error {A} response :
  quiet (throw_mapped_error (A := A) response).
Proof. unfold throw_mapped_error, json. solve_quiet. Qed.

Lemma quiet_upload_listeners ev : quiet (upload_listeners ev).
Proof. unfold upload_listeners. solve_quiet. Qed.

Lemma quiet_progress_listeners ev : quiet (Checked.progress_listeners ev).
Proof. unfold Checked.progress_listeners. solve_quiet. Qed.

(** What follows the request in every method is quiet. *)
Ltac after_request :=
  first
    [ apply quiet_upload_listeners | apply quiet_progress_listeners
    | apply quiet_if;
      first [apply quiet_throw_api_error | apply quiet_throw_mapped_error
            | apply quiet_json] ].

Lemma sent_quiet {A} (m : M A) env this : quiet m -> sent (m env this) = [].
Proof. intros Hq. apply Hq. Qed.

Lemma final_quiet {A} (m : M A) env this : quiet m -> final (m env this) = this.
Proof. intros Hq. apply Hq. Qed.

Lemma set_field_same k v fields :
  lookup_field k fields = Some v -> set_field k v fields = fields.
Proof.
  induction fields as [|[k' v'] rest IH]; [discriminate|].
  cbn [lookup_field set_field]. destruct (String.eqb k k'); intros H.
  - by injection H as ->.
  - by rewrite IH.
Qed.

Lemma prop_lookup fields k v :
  prop (JObj fields) k = v -> v <> JUndefined -> lookup_field k fields = Some v.
Proof.
  cbn [prop]. destruct (lookup_field k fields); simpl; congruence.
Qed.

Lemma valid_report_createdAt env types report :
  accepts env (BugReportSchema_of types) report = true ->
  prop report "createdAt" = JUndefined
  \/ exists ms, prop report "createdAt" = JDate ms.
Proof.
  intros Hok.
  assert (accepts env (z_optional z_date) (prop report "createdAt") = true) as H.
  { destruct types; eapply accepts_object_field; first [exact Hok | simpl; eauto 10]. }
  destruct (prop report "createdAt"); try discriminate H; eauto.
Qed.

(** Finishes a goal about the requests of a run once the request is in
    view: whatever the network answers, nothing more is sent. *)
Ltac one_request :=
  match goal with
  | |- context [transport ?env ?req] =>
      exists req; split;
      [ destruct (transport env req); cbn [sent]; [|try reflexivity];
        try (rewrite sent_quiet by after_request); reflexivity
      | ]
  end.

Lemma lookup_set_field_eq k v fields :
  lookup_field k (set_field k v fields) = Some v.
Proof.
  induction fields as [|[k' v'] rest IH]; cbn [set_field lookup_field].
  - by rewrite String.eqb_refl.
  - destruct (String.eqb k k') eqn:E; cbn [lookup_field]; by rewrite E.
Qed.

Lemma lookup_set_field_ne k k' v fields :
  k <> k' -> lookup_field k' (set_field k v fields) = lookup_field k' fields.
Proof.
  intros Hne. induction fields as [|[k0 v0] rest IH]; cbn [set_field lookup_field].
  - by rewrite (proj2 (String.eqb_neq k' k)).
  - destruct (String.eqb k k0) eqn:E; cbn [lookup_field].
    + apply String.eqb_eq in E as <-. by rewrite (proj2 (String.eqb_neq k' k)).
    + by rewrite IH.
Qed.

(** Setting a key the object does not have puts it last. *)
Lemma set_field_absent k v fields :
  lookup_field k fields = None -> set_field k v fields = (fields ++ [(k, v)])%list.
Proof.
  induction fields as [|[k' v'] rest IH]; [done|].
  cbn [lookup_field set_field]. destruct (String.eqb k k'); [done|].
  intros H. by rewrite IH.
Qed.

(** Setting a key the object has replaces the value where the key stands. *)
Lemma set_field_present k v v' before after :
  lookup_field k before = None ->
  set_field k v' (before ++ (k, v) :: after)%list
  = (before ++ (k, v') :: after)%list.
Proof.
  induction before as [|[k0 v0] rest IH]; cbn [lookup_field set_field app].
  - by rewrite String.eqb_refl.
  - destruct (String.eqb k k0); [done|]. intros H. by rewrite IH.
Qed.

(** C7.  A valid report submitted through [submitBugReport] or
    [submitBugReportWithProgress] goes out in exactly one request, whose body
    is the serialization of an object.  When the report has no [createdAt],
    that object has [createdAt] equal to the current time and every other
    property as the report has it: the key is put last when the report does
    not have it, and keeps its place when the report has it as [undefined].
    When the report has a [createdAt], the object is the report itself,
    timestamp unchanged.  A valid report is in one of the two cases. *)
Theorem createdAt_defaults_to_request_time types rev call m report env this :
  call = SubmitBugReport report \/ call = SubmitBugReportWithProgress report ->
  invoke types rev call = Some m ->
  call_valid env types rev call ->
  exists req fields sentFields,
    report = JObj fields
    /\ sent (m env this) = [req]
    /\ body_text (body req) = Some (JSON_stringify env (JObj sentFields))
    /\ (prop report "createdAt" = JUndefined ->
        lookup_field "createdAt" sentFields = Some (JDate (Date_now env))
        /\ (forall k, k <> "createdAt" ->
              lookup_field k sentFields = lookup_field k fields)
        /\ (lookup_field "createdAt" fields = None ->
            sentFields
            = (fields ++ [("createdAt", JDate (Date_now env))])%list)
        /\ (forall before after,
              fields = (before ++ ("createdAt", JUndefined) :: after)%list ->
              lookup_field "createdAt" before = None ->
              sentFields
              = (before ++ ("createdAt", JDate (Date_now env)) :: after)%list))
    /\ (forall ms, prop report "createdAt" = JDate ms -> sentFields = fields)
    /\ (prop report "createdAt" = JUndefined
        \/ exists ms, prop report "createdAt" = JDate ms).
Proof.
  intros Hcall Hm Hvalid.
  assert (prop report "createdAt" = JUndefined
          \/ exists ms, prop report "createdAt" = JDate ms) as Hdate.
  { destruct Hcall as [-> | ->], rev; simpl in Hm; try discriminate Hm;
      unfold call_valid in Hvalid; cbn [payload] in Hvalid;
      first [ exact (valid_report_createdAt _ _ _ Hvalid)
            | exact (valid_report_createdAt _ FileTypes _ Hvalid) ]. }
  destruct Hcall as [-> | ->]; enter Hm Hvalid;
    match goal with
    | |- context [transport ?env ?req] =>
        match req with
        | context [JSON_stringify _ (JObj ?sentFields)] =>
            exists req, fields, sentFields
        end;
        split; [reflexivity|]; split;
        [ destruct (transport env req); cbn [sent]; [|try reflexivity];
          try (rewrite sent_quiet by after_request); reflexivity
        | ]
    end;
    cbn [body body_text]; (split; [reflexivity|]);
    (split; [|split; [|exact Hdate]]).
  all: try (intros Habsent; rewrite Habsent; cbn [nullish]; split_and!;
            [ apply lookup_set_field_eq
            | intros k Hk; by apply lookup_set_field_ne
            | apply set_field_absent
            | intros before after -> Hbefore; by apply set_field_present ]).
  all: intros ms Hms; rewrite Hms; cbn [nullish];
    by rewrite set_field_same by (by apply prop_lookup).
Qed.

Lemma accepts_string_inv env checks v :
  accepts env (z_string checks) v = true ->
  exists s, v = JStr s /\ forallb (string_check env s) checks = true.
Proof. destruct v; try discriminate. eauto. Qed.

Lemma accepts_enum_inv env values v :
  accepts env (z_nativeEnum values) v = true ->
  exists s, v = JStr s /\ existsb (String.eqb s) values = true.
Proof. destruct v; try discriminate. eauto. Qed.

(** The four text fields of a valid upload payload. *)
Lemma valid_file_report_fields env report :
  accepts env TypesFile.BugReportFileSchema report = true ->
  exists title description severity tags,
    prop report "title" = JStr title
    /\ prop report "description" = JStr description
    /\ prop report "severity" = JStr severity
    /\ prop report "tags" = JArr tags.
Proof.
  intros Hok.
  pose proof (accepts_object_field _ _ _ "title" _ Hok ltac:(simpl; eauto 10)) as Ht.
  pose proof (accepts_object_field _ _ _ "description" _ Hok ltac:(simpl; eauto 10))
    as Hd.
  pose proof (accepts_object_field _ _ _ "severity" _ Hok ltac:(simpl; eauto 10)) as Hs.
  pose proof (accepts_object_field _ _ _ "tags" _ Hok ltac:(simpl; eauto 10)) as Hg.
  apply accepts_string_inv in Ht as (title & -> & _).
  apply accepts_string_inv in Hd as (description & -> & _).
  apply accepts_enum_inv in Hs as (severity & -> & _).
  apply accepts_array in Hg as (tags & -> & _).
  by exists title, description, severity, tags.
Qed.

(** C5, amended.  For a valid upload payload,
    [submitBugReportWithFile] and [submitBugReportWithFileProgress] send one
    request whose form holds, in this order, [title], [description],
    [severity], [tags] as the JSON text of the tag list, and one [file] entry
    per element of the file list, which may be empty. *)
Theorem upload_form_fields types rev call m report env this :
  call = SubmitBugReportWithFile report
  \/ call = SubmitBugReportWithFileProgress report ->
  invoke types rev call = Some m ->
  call_valid env types rev call ->
  exists title description severity tags files req,
    prop report "title" = JStr title
    /\ prop report "description" = JStr description
    /\ prop report "severity" = JStr severity
    /\ prop report "tags" = JArr tags
    /\ prop report "file" = JArr (map JFile files)
    /\ sent (m env this) = [req]
    /\ body req
       = FormBody
           ([("title", JStr title); ("description", JStr description);
             ("severity", JStr severity);
             ("tags", JStr (JSON_stringify env (JArr tags)))]
            ++ map (fun file => ("file", JFile file)) files).
Proof.
  intros Hcall Hm Hvalid.
  destruct Hcall as [-> | ->]; enter Hm Hvalid;
    destruct (valid_file_report_fields _ _ Hvalid)
      as (title & description & severity & tags & Ht & Hd & Hs & Hg);
    match goal with
    | H : prop _ "file" = JArr (map JFile ?fs) |- context [transport _ ?req] =>
        exists title, description, severity, tags, fs, req
    end;
    (split_and!; try assumption;
     [ destruct (transport env _); cbn [sent]; [|try reflexivity];
       try (rewrite sent_quiet by after_request); reflexivity
     | cbn [body]; by rewrite Ht, Hd, Hs, Hg, map_map ]).
Qed.

(** ** Headers *)

(** Every request a method sends, reduced to the one it can send. *)
Ltac the_request Hin :=
  try match goal with
      | _ : context [transport ?env ?req] |- _ =>
          destruct (transport env req); cbn [sent] in Hin;
          try (rewrite sent_quiet in Hin by after_request)
      end;
  cbn [sent] in Hin;
  first [ by apply elem_of_nil in Hin
        | apply list_elem_of_singleton in Hin as -> ];
  unfold Cors.request, Cors.with_headers, Cors.defaultFetchOptions;
  cbn [req_headers headers init_headers].

Lemma request_headers_agree types rev call m env this req k :
  invoke types rev call = Some m ->
  req ∈ sent (m env this) ->
  k <> "Content-Type" ->
  req_headers req !! k = headers this !! k.
Proof.
  intros Hm Hin Hk. revert Hin. enter_any Hm; intros Hin; the_request Hin;
    rewrite ?lookup_insert_ne, ?lookup_delete_ne by congruence; try reflexivity.
  all: rewrite map_lookup_filter; destruct (headers this !! k) eqn:Hl;
    cbn; [|done]; by rewrite option_guard_True.
Qed.

Lemma request_headers_same types rev call m env this req :
  invoke types rev call = Some m ->
  sends_instance_headers rev call = true ->
  req ∈ sent (m env this) ->
  req_headers req = headers this.
Proof.
  intros Hm Hsame Hin. revert Hin.
  enter_any Hm; try discriminate Hsame; intros Hin; the_request Hin; reflexivity.
Qed.

(** Every method but the progress upload of [Upload] leaves the instance as
    the constructor made it. *)
Lemma instance_unchanged types rev call m env this :
  invoke types rev call = Some m ->
  (forall report, (rev, call) <> (RUpload, SubmitBugReportWithFileProgress report)) ->
  final (m env this) = this.
Proof.
  intros Hm Hne.
  enter_any Hm; try (by exfalso; eapply Hne);
    try match goal with
        | |- context [transport ?env ?req] => destruct (transport env req)
        end;
    cbn [final]; try (rewrite final_quiet by after_request); reflexivity.
Qed.

Lemma constructed_headers env rev options this :
  construct env rev options = Return this ->
  exists defaults,
    headers this = custom_headers options ∪ defaults
    /\ forall k, defaults !! k = default_header rev options k.
Proof.
  destruct rev; cbn [construct];
    unfold Basic.constructor, Streamed.constructor, Cors.constructor,
      Upload.constructor, Checked.constructor;
    repeat match goal with
           | |- context [if ?b then _ else _] => destruct b
           | |- context [match parse ?e ?s ?v with _ => _ end] => destruct (parse e s v)
           end;
    intros H; try discriminate H; injection H as <-; cbn [headers];
    eexists; (split; [reflexivity|]); intros k;
    unfold default_header; cbn [requires_appName];
    repeat match goal with
           | |- context [String.eqb k ?name] =>
               destruct (String.eqb_spec k name) as [-> | ?];
               [ by rewrite ?lookup_insert_eq
               | rewrite ?(lookup_insert_ne _ name k) by congruence ]
           end;
    try apply lookup_empty.
Qed.

Lemma constructed_headers_lookup env rev options this k :
  construct env rev options = Return this ->
  headers this !! k
  = match custom_headers options !! k with
    | Some v => Some v
    | None => default_header rev options k
    end.
Proof.
  intros Hnew.
  destruct (constructed_headers _ _ _ _ Hnew) as (defaults & -> & Hdefaults).
  destruct (custom_headers options !! k) as [v|] eqn:Hcustom.
  - by apply lookup_union_Some_l.
  - by rewrite lookup_union_r.
Qed.

Lemma request_content_type types rev call m env this req :
  invoke types rev call = Some m ->
  req ∈ sent (m env this) ->
  req_headers req !! "Content-Type"
  = match rev, call with
    | RCors, (SubmitBugReportWithFile _ | SubmitBugReportWithFileProgress _) => None
    | RUpload, (SubmitBugReportWithFile _ | SubmitBugReportWithFileProgress _) =>
        Some "multipart/form-data"
    | RChecked, (SubmitBugReportWithFile _ | SubmitBugReportWithFileProgress _) =>
        headers this !! "Content-Type"
    | RChecked, _ => Some "application/json"
    | _, _ => headers this !! "Content-Type"
    end.
Proof.
  intros Hm Hin. revert Hin.
  enter_any Hm; intros Hin; the_request Hin;
    rewrite ?lookup_insert_eq, ?lookup_delete_eq; try reflexivity.
  all: rewrite map_lookup_filter; destruct (headers this !! "Content-Type");
    cbn; [|done]; by rewrite option_guard_False by (intros H; by apply H).
Qed.


(** ** The bounds of [BugReportSchema] *)

Lemma accepts_object_field_false env shape v k s :
  In (k, s) shape -> accepts env s (prop v k) = false ->
  accepts env (z_object shape) v = false.
Proof.
  intros Hin Hno. destruct (accepts env (z_object shape) v) eqn:Hok; [|done].
  by rewrite (accepts_object_field _ _ _ _ _ Hok Hin) in Hno.
Qed.

Lemma accepts_array_false env element at_least items x :
  In x items -> accepts env element x = false ->
  accepts env (z_array element at_least) (JArr items) = false.
Proof.
  intros Hin Hno.
  destruct (accepts env (z_array element at_least) (JArr items)) eqn:Hok; [|done].
  apply accepts_array in Hok as (items' & [= <-] & Hall & _).
  rewrite forallb_forall in Hall. by rewrite (Hall x Hin) in Hno.
Qed.

Lemma accepts_enum env values s :
  accepts env (z_enum values) (JStr s) = true <-> In s values.
Proof.
  cbn [accepts]. rewrite existsb_exists. split.
  - intros (x & Hin & ->%String.eqb_eq). done.
  - intros Hin. exists s. by rewrite String.eqb_refl.
Qed.

Lemma accepts_nativeEnum env values s :
  accepts env (z_nativeEnum values) (JStr s) = true <-> In s values.
Proof. apply (accepts_enum env values s). Qed.

Lemma accepts_strings env element (P : string -> Prop) xs :
  (forall s, P s -> accepts env element (JStr s) = true) ->
  Forall P xs ->
  accepts env (z_array element None) (JArr (map JStr xs)) = true.
Proof.
  intros Hel Hall.
  change (forallb (accepts env element) (map JStr xs) && true = true).
  rewrite andb_true_r, forallb_forall. intros x (s & <- & Hs)%in_map_iff.
  apply Hel. rewrite Forall_forall in Hall. apply Hall. by apply list_elem_of_In.
Qed.

Lemma out_of_bounds_refused env types report :
  out_of_bounds report ->
  accepts env (BugReportSchema_of types) report = false.
Proof.
  intros [(title & Ht & Hbad) | [Hd | (items & tag & Hg & Hin & Hout)]].
  - assert (accepts env (z_string [min 1; max 200]) (prop report "title") = false).
    { rewrite Ht. cbn [accepts forallb string_check].
      destruct Hbad as [-> | Hlong]; [done|].
      apply andb_false_intro2. rewrite andb_true_r. apply Nat.leb_gt. exact Hlong. }
    destruct types; (eapply accepts_object_field_false; [|exact H]); simpl; eauto.
  - assert (accepts env (z_string [min 1]) (prop report "description") = false).
    { by rewrite Hd. }
    destruct types; (eapply accepts_object_field_false; [|exact H]); simpl; eauto.
  - assert (forall n, accepts env (z_array TypesFile.BugTagSchema n)
                        (prop report "tags") = false) as Hno.
    { intros n. rewrite Hg. eapply accepts_array_false; [exact Hin|].
      destruct (accepts env TypesFile.BugTagSchema (JStr tag)) eqn:Hok; [|done].
      by apply accepts_enum in Hok. }
    destruct types; (eapply accepts_object_field_false; [|apply Hno]); simpl; eauto 10.
Qed.

Lemma within_bounds_accepted env report :
  within_bounds report -> optional_fields_typed report ->
  accepts env TypesFile.BugReportSchema report = true.
Proof.
  intros (title & description & severity & tags
          & Ht & [Ht1 Ht2] & Hd & Hd1 & Hs & Hsev & Hg & Htags) [Hfile Hdate].
  destruct (prop_defined_JObj report "title") as [fields ->]; [congruence|].
  unfold TypesFile.BugReportSchema. rewrite accepts_object.
  cbn [is_object forallb fst snd andb]. rewrite Ht, Hd, Hs, Hg.
  rewrite !andb_true_iff. split_and!; try reflexivity.
  - cbn [accepts forallb string_check]. rewrite andb_true_r.
    apply andb_true_intro; split; by apply Nat.leb_le.
  - cbn [accepts forallb string_check]. rewrite andb_true_r. by apply Nat.leb_le.
  - by apply accepts_nativeEnum.
  - apply (accepts_strings _ _ _ _ (fun s H => proj2 (accepts_enum env _ s) H) Htags).
  - destruct Hfile as [-> | [names ->]]; [done|].
    change (accepts env (z_array (z_string []) None) (JArr (map JStr names)) = true).
    by apply (accepts_strings _ _ (fun _ => True)); [|apply Forall_true].
  - by destruct Hdate as [-> | [ms ->]].
Qed.

Lemma accepts_enum_items_inv env values items :
  forallb (accepts env (z_enum values)) items = true ->
  exists tags, items = map JStr tags /\ Forall (fun tag => In tag values) tags.
Proof.
  induction items as [|x items IH]; intros Hall.
  - by exists [].
  - cbn [forallb] in Hall. apply andb_prop in Hall as [Hx Hrest].
    destruct (IH Hrest) as (tags & -> & Htags).
    destruct x; try discriminate Hx. apply accepts_enum in Hx.
    exists (s :: tags). split; [done | by constructor].
Qed.

Lemma accepts_string_items_inv env items :
  forallb (accepts env (z_string [])) items = true ->
  exists names, items = map JStr names.
Proof.
  induction items as [|x items IH]; intros Hall.
  - by exists [].
  - cbn [forallb] in Hall. apply andb_prop in Hall as [Hx Hrest].
    destruct (IH Hrest) as (names & ->).
    destruct x; try discriminate Hx. by exists (s :: names).
Qed.

Lemma accepts_optional env inner v :
  accepts env (z_optional inner) v = true ->
  v = JUndefined \/ accepts env inner v = true.
Proof. destruct v; auto. Qed.

Lemma accepts_date_inv env v :
  accepts env z_date v = true -> exists ms, v = JDate ms.
Proof. destruct v; try discriminate; eauto. Qed.

Lemma accepts_optional_date env v :
  accepts env (z_optional z_date) v = true <->
  v = JUndefined \/ exists ms, v = JDate ms.
Proof.
  split.
  - intros [-> | H]%accepts_optional; [by left|]. right. by apply accepts_date_inv in H.
  - by intros [-> | [ms ->]].
Qed.

Lemma includes_allowed_types x :
  TypesFile.includes TypesFile.allowed_types x = true <-> In x image_types.
Proof.
  unfold TypesFile.includes, TypesFile.allowed_types, image_types.
  cbn [existsb In]. rewrite !orb_true_iff, !String.eqb_eq. intuition discriminate.
Qed.

(** The bounds on the four required properties, as the three schemas share
    them (the earlier schema through [at_least = Some 1]). *)
Lemma required_fields_iff env report at_least :
  (accepts env (z_string [min 1; max 200]) (prop report "title") = true
   /\ accepts env (z_string [min 1]) (prop report "description") = true
   /\ accepts env (z_nativeEnum TypesFile.BugSeverity) (prop report "severity") = true
   /\ accepts env (z_array TypesFile.BugTagSchema at_least) (prop report "tags") = true)
  <-> within_bounds report
      /\ forall tags n, prop report "tags" = JArr tags -> at_least = Some n ->
                        n <= length tags.
Proof.
  split.
  - intros (Ht & Hd & Hs & Hg).
    apply accepts_string_inv in Ht as (title & Ht & Hlen).
    apply accepts_string_inv in Hd as (description & Hd & Hlen').
    apply accepts_enum_inv in Hs as (severity & Hs & Hsev).
    apply accepts_array in Hg as (items & Hg & Hall & Hmin).
    apply accepts_enum_items_inv in Hall as (tags & -> & Htags).
    cbn [forallb string_check] in Hlen, Hlen'.
    rewrite !andb_true_iff, !Nat.leb_le in Hlen.
    rewrite andb_true_iff, Nat.leb_le in Hlen'.
    split.
    + exists title, description, severity, tags. split_and!; try done; try lia.
      apply (accepts_nativeEnum env). by rewrite <- Hsev.
    + intros tags' n Hg' ->. rewrite Hg in Hg'. by injection Hg' as <-.
  - intros [(title & description & severity & tags
             & Ht & [Ht1 Ht2] & Hd & Hd1 & Hs & Hsev & Hg & Htags) Hmin].
    rewrite Ht, Hd, Hs, Hg. split_and!.
    + cbn [accepts forallb string_check]. rewrite andb_true_r.
      apply andb_true_intro; split; by apply Nat.leb_le.
    + cbn [accepts forallb string_check]. rewrite andb_true_r. by apply Nat.leb_le.
    + by apply accepts_nativeEnum.
    + change (forallb (accepts env TypesFile.BugTagSchema) (map JStr tags)
              && match at_least with
                 | Some n => Nat.leb n (length (map JStr tags))
                 | None => true
                 end = true).
      apply andb_true_intro; split.
      * rewrite forallb_forall. intros x (s & <- & Hin)%in_map_iff.
        apply accepts_enum. rewrite Forall_forall in Htags.
        apply Htags. by apply list_elem_of_In.
      * destruct at_least as [n|]; [|done]. apply Nat.leb_le. by eapply Hmin.
Qed.

Lemma within_bounds_object report :
  within_bounds report -> is_object report = true.
Proof.
  intros (title & _ & _ & _ & Ht & _).
  destruct (prop_defined_JObj report "title") as [fields ->]; [congruence|done].
Qed.

Lemma accepts_record_unknown env v :
  accepts env (z_record z_unknown) v = is_object v.
Proof.
  destruct v; try reflexivity. cbn [accepts is_object].
  induction fields as [|kv fields IH]; [done|]. cbn [forallb]. by rewrite IH.
Qed.

Lemma later_schema_accepts_iff env report :
  accepts env TypesFile.BugReportSchema report = true
  <-> within_bounds report /\ optional_fields_typed report.
Proof.
  unfold TypesFile.BugReportSchema. rewrite accepts_object.
  cbn [forallb fst snd]. rewrite !andb_true_iff.
  pose proof (required_fields_iff env report None) as Hreq.
  rewrite accepts_optional_date. unfold optional_fields_typed.
  split.
  - intros (Hobj & Ht & Hd & Hs & Hg & Hf & Hc & _).
    split; [apply Hreq; by split_and! | split; [|done]].
    apply accepts_optional in Hf as [-> | Hf]; [by left|]. right.
    apply accepts_array in Hf as (items & -> & Hall & _).
    apply accepts_string_items_inv in Hall as [names ->]. eauto.
  - intros (Hin & Hf & Hc).
    destruct (proj2 Hreq) as (Ht & Hd & Hs & Hg); [split; [done|]; by intros|].
    split_and!; try done; [by apply within_bounds_object|].
    destruct Hf as [-> | [names ->]]; [done|].
    change (accepts env (z_array (z_string []) None) (JArr (map JStr names)) = true).
    by apply (accepts_strings _ _ (fun _ => True)); [|apply Forall_true].
Qed.

Lemma earlier_schema_accepts_iff env report :
  accepts env TypesImage.BugReportSchema report = true
  <-> within_bounds report
      /\ prop report "tags" <> JArr []
      /\ earlier_fields_typed report.
Proof.
  unfold TypesImage.BugReportSchema. rewrite accepts_object.
  cbn [forallb fst snd]. rewrite !andb_true_iff.
  pose proof (required_fields_iff env report (Some 1)) as Hreq.
  rewrite accepts_optional_date. unfold earlier_fields_typed.
  split.
  - intros (Hobj & Ht & Hd & Hs & Hg & Hi & Hm & Hc & _).
    destruct (proj1 Hreq) as [Hin Hmin]; [by split_and!|].
    split_and!; try done.
    + intros Hempty. specialize (Hmin [] 1 Hempty eq_refl). simpl in Hmin. lia.
    + apply accepts_optional in Hi as [-> | Hi]; [by left|]. right.
      apply accepts_string_inv in Hi as (s & -> & _). eauto.
    + apply accepts_optional in Hm as [-> | Hm]; [by left|]. right.
      by rewrite accepts_record_unknown in Hm.
  - intros (Hin & Hne & Hi & Hm & Hc).
    destruct (proj2 Hreq) as (Ht & Hd & Hs & Hg).
    { split; [done|]. intros tags n Hg [= <-].
      destruct tags; [done | simpl; lia]. }
    split_and!; try done; [by apply within_bounds_object | |].
    + by destruct Hi as [-> | [s ->]].
    + destruct Hm as [-> | Hm]; [done|].
      destruct (prop report "metadata") eqn:E; try discriminate Hm; [done|].
      exact (accepts_record_unknown env (JObj fields)).
Qed.

Lemma valid_call_sends_one types rev call m env this :
  invoke types rev call = Some m ->
  call_valid env types rev call ->
  exists req, sent (m env this) = [req].
Proof.
  intros Hm Hvalid.
  enter Hm Hvalid;
    match goal with
    | |- context [transport ?env ?req] =>
        exists req; destruct (transport env req); cbn [sent]; [|try reflexivity];
        try (rewrite sent_quiet by after_request); reflexivity
    end.
Qed.

(** C10, amended.  [submitBugReport] on a payload whose title is empty or
    longer than 200 UTF-16 code units, whose description is empty, or whose
    tag list holds a string outside the tag enum stops with the validation
    error and sends nothing, in every revision and with either schema module.
    A payload that keeps those bounds and names a valid severity passes
    exactly when its other properties are as the schema of the revision wants
    them: for the later [BugReportSchema], [file] absent or a list of strings
    and [createdAt] absent or a valid date; for the earlier one, at least one
    tag, [image] absent or a string, [metadata] absent or an object and
    [createdAt] absent or a valid date.  When it passes exactly one request
    goes out; when it does not, the call stops with the validation error and
    sends nothing. *)
Theorem BugReportSchema_bounds types rev m env this report schema :
  invoke types rev (SubmitBugReport report) = Some m ->
  payload types rev (SubmitBugReport report) = Some (schema, report) ->
  (out_of_bounds report ->
   accepts env schema report = false
   /\ m env this = mkRun this [] (Rejected (validation_error env schema report)))
  /\ (within_bounds report ->
      (accepts env schema report = true
       <-> (schema = TypesFile.BugReportSchema /\ optional_fields_typed report)
           \/ (schema = TypesImage.BugReportSchema
               /\ prop report "tags" <> JArr []
               /\ earlier_fields_typed report))
      /\ (accepts env schema report = true ->
          exists req, sent (m env this) = [req])
      /\ (accepts env schema report = false ->
          m env this
          = mkRun this [] (Rejected (validation_error env schema report)))).
Proof.
  intros Hm Hp. split.
  - intros Hbad.
    assert (accepts env schema report = false) as Hno.
    { destruct rev; injection Hp as <-;
        first [ by apply out_of_bounds_refused
              | by apply (out_of_bounds_refused _ FileTypes) ]. }
    split; [exact Hno|].
    by apply (validation_failure_run _ _ _ _ _ _ _ _ Hm Hp).
  - intros Hin. split_and!.
    + assert (schema = TypesFile.BugReportSchema
              \/ schema = TypesImage.BugReportSchema) as Hschema.
      { destruct rev, types; injection Hp as <-; auto. }
      split.
      * intros Hok. destruct Hschema as [-> | ->].
        -- left. split; [done|]. by apply later_schema_accepts_iff in Hok as [_ ?].
        -- right. split; [done|].
           by apply earlier_schema_accepts_iff in Hok as (_ & ? & ?).
      * intros [[-> Htyped] | (-> & Htags & Htyped)].
        -- by apply later_schema_accepts_iff.
        -- by apply earlier_schema_accepts_iff.
    + intros Hok. apply (valid_call_sends_one _ _ _ _ _ _ Hm).
      unfold call_valid. by rewrite Hp.
    + intros Hno. by apply (validation_failure_run _ _ _ _ _ _ _ _ Hm Hp).
Qed.
(** ** The claims at concrete inputs *)



(** C2, witness: "should validate bug report data". *)
Lemma invalid_payload_sends_nothing_witness :
  sent (Basic.submitBugReport ImageTypes Mock.invalidBugReport
          (Mock.env (Responded 200 "ok") (Return Mock.successBody))
          (Mock.client RBasic Mock.mockCredentials)) = []
  /\ outcome (Basic.submitBugReport ImageTypes Mock.invalidBugReport
                (Mock.env (Responded 200 "ok") (Return Mock.successBody))
                (Mock.client RBasic Mock.mockCredentials))
     = Rejected (mkError Error "Invalid bug report data: [issues]").
Proof.
  destruct (invalid_payload_sends_nothing ImageTypes RBasic
              (SubmitBugReport Mock.invalidBugReport) _
              TypesImage.BugReportSchema Mock.invalidBugReport
              (Mock.env (Responded 200 "ok") (Return Mock.successBody))
              (Mock.client RBasic Mock.mockCredentials)
              eq_refl eq_refl eq_refl) as (_ & Hsent & Hout & _).
  split; [exact Hsent | exact Hout].
Defined.

(** C3, witness: an empty [appName]. *)
Lemma constructor_requires_credentials_witness :
  exists e,
    construct (Mock.env (Responded 200 "ok") (Return Mock.successBody)) RBasic
      (O.mk (Some "https://api.test.com") (Some EmptyString) (Some "test")
         (Some "test") None)
    = Throw e.
Proof.
  apply constructor_requires_credentials. reflexivity.
Defined.

(** C4.  In the [Upload] revision a successful
    [submitBugReportWithFileProgress] leaves [this.headers["Content-Type"]]
    at ["multipart/form-data"], where the constructor had put
    ["application/json"]; the next [submitBugReport] sends its JSON body under
    that header.  [submitBugReportWithFile] of the same revision sets the
    header on a copy and leaves the instance alone. *)
Lemma progress_upload_rewrites_instance_headers :
  let env := Mock.env (Responded 200 "ok") (Return Mock.successBody) in
  let this := Mock.client RUpload Mock.mockCredentials in
  let run :=
    Upload.submitBugReportWithFileProgress (Mock.fileBugReport [Mock.screenshot])
      env this in
  construct env RUpload Mock.mockCredentials = Return this
  /\ headers this !! "Content-Type" = Some "application/json"
  /\ outcome run = Fulfilled Mock.successBody
  /\ headers (final run) !! "Content-Type" = Some "multipart/form-data"
  /\ final run <> this
  /\ map (fun req => req_headers req !! "Content-Type")
       (sent (Upload.submitBugReport Mock.mockBugReport env (final run)))
     = [Some "multipart/form-data"]
  /\ final (Upload.submitBugReportWithFile (Mock.fileBugReport [Mock.screenshot])
              env this) = this.
Proof.
  cbv zeta. split_and!; by vm_compute.
Qed.

(** C5, counterexample.  A payload with an empty file list passes
    [BugReportFileSchema], and the upload goes out with the four text fields
    and no [file] entry. *)
Lemma empty_file_list_is_accepted :
  let env := Mock.env (Responded 200 "ok") (Return Mock.successBody) in
  let this := Mock.client RCors Mock.mockCredentials in
  let report := Mock.fileBugReport [] in
  let run := Cors.submitBugReportWithFile report env this in
  prop report "file" = JArr []
  /\ accepts env TypesFile.BugReportFileSchema report = true
  /\ map body (sent run)
     = [FormBody [("title", JStr "Test Bug");
                  ("description", JStr "This is a test bug report");
                  ("severity", JStr "HIGH");
                  ("tags", JStr (Mock.show (JArr [JStr "UI"])))]]
  /\ outcome run = Fulfilled Mock.successBody.
Proof. cbv zeta. split_and!; by vm_compute. Qed.

(** C5, witness: two attachments. *)
Lemma upload_form_fields_witness :
  map body
    (sent (Checked.submitBugReportWithFileProgress
             (Mock.fileBugReport [Mock.screenshot; Mock.screenshot])
             (Mock.env (Responded 200 "ok") (Return Mock.successBody))
             (Mock.client RChecked Mock.mockCredentials)))
  = [FormBody [("title", JStr "Test Bug");
               ("description", JStr "This is a test bug report");
               ("severity", JStr "HIGH");
               ("tags", JStr (Mock.show (JArr [JStr "UI"])));
               ("file", JFile Mock.screenshot);
               ("file", JFile Mock.screenshot)]].
Proof.
  destruct (upload_form_fields FileTypes RChecked
              (SubmitBugReportWithFileProgress
                 (Mock.fileBugReport [Mock.screenshot; Mock.screenshot]))
              _ (Mock.fileBugReport [Mock.screenshot; Mock.screenshot])
              (Mock.env (Responded 200 "ok") (Return Mock.successBody))
              (Mock.client RChecked Mock.mockCredentials)
              (or_intror eq_refl) eq_refl eq_refl)
    as (title & description & severity & tags & files & req
        & Ht & Hd & Hs & Hg & Hf & Hsent & Hbody).
  rewrite Hsent. cbn [map]. rewrite Hbody.
  injection Ht as <-. injection Hd as <-. injection Hs as <-. injection Hg as <-.
  injection Hf as Hf. apply (f_equal (fun l => map (fun file => ("file", file)) l)) in Hf.
  rewrite map_map in Hf. by rewrite <- Hf.
Defined.

(** C6, counterexample.  [getBugReport] rejects with whatever [fetch]
    rejected with: the error is not a plain [Error], its message is the
    platform's, and where the platform names the URL the message changes with
    the request. *)
Lemma fetch_failure_message_varies :
  let this := Mock.client RBasic Mock.mockCredentials in
  outcome (Basic.getBugReport "123"
             (Mock.env (Failed Mock.refused) (Return Mock.successBody)) this)
  = Rejected (mkError TypeError "Failed to fetch")
  /\ outcome (Basic.getBugReport "123" Mock.offline this)
     = Rejected
         (mkError (HostError "FetchError")
            "request to https://api.test.com/bugs/123 failed, reason: ECONNREFUSED")
  /\ outcome (Basic.getBugReport "456" Mock.offline this)
     = Rejected
         (mkError (HostError "FetchError")
            "request to https://api.test.com/bugs/456 failed, reason: ECONNREFUSED")
  /\ outcome (Basic.getBugReport "123" Mock.offline this)
     <> outcome (Basic.getBugReport "456" Mock.offline this).
Proof. cbv zeta. split_and!; by vm_compute. Qed.

(** C6, witness: the two XHR messages and a [fetch] failure. *)
Lemma transport_failure_mapping_witness :
  outcome (Cors.submitBugReportWithFileProgress (Mock.fileBugReport [Mock.screenshot])
             (Mock.env (Failed Mock.refused) (Return Mock.successBody))
             (Mock.client RCors Mock.mockCredentials))
  = Rejected (mkError Error "Network error occurred")
  /\ outcome (Checked.submitBugReportWithProgress Mock.mockBugReport
                (Mock.env (Failed Mock.unreachable) (Return Mock.successBody))
                (Mock.client RChecked Mock.mockCredentials))
     = Rejected (mkError Error "Network request failed")
  /\ outcome (Upload.getBugTags
                (Mock.env (Failed Mock.unreachable) (Return Mock.successBody))
                (Mock.client RUpload Mock.mockCredentials))
     = Rejected Mock.unreachable.
Proof.
  split_and!.
  - apply (transport_failure_mapping FileTypes RCors
             (SubmitBugReportWithFileProgress (Mock.fileBugReport [Mock.screenshot]))
             _ _ _ Mock.refused);
      [reflexivity | reflexivity | intros; reflexivity].
  - apply (transport_failure_mapping FileTypes RChecked
             (SubmitBugReportWithProgress Mock.mockBugReport)
             _ _ _ Mock.unreachable);
      [reflexivity | reflexivity | intros; reflexivity].
  - apply (transport_failure_mapping FileTypes RUpload GetBugTags);
      [reflexivity | exact I | intros; reflexivity].
Defined.

(** C7, witness: a report without and a report with [createdAt]. *)
Lemma createdAt_defaults_to_request_time_witness :
  map (fun req => body_text (body req))
    (sent (Basic.submitBugReport FileTypes Mock.mockBugReport
             (Mock.env (Responded 200 "ok") (Return Mock.successBody))
             (Mock.client RBasic Mock.mockCredentials)))
  = [Some (Mock.show
             (JObj [("title", JStr "Test Bug");
                    ("description", JStr "This is a test bug report");
                    ("severity", JStr "HIGH");
                    ("tags", JArr [JStr "UI"; JStr "FUNCTIONALITY"]);
                    ("createdAt", JDate 1700000000000)]))]
  /\ map (fun req => body_text (body req))
       (sent (Checked.submitBugReportWithProgress Mock.datedBugReport
                (Mock.env (Responded 200 "ok") (Return Mock.successBody))
                (Mock.client RChecked Mock.mockCredentials)))
     = [Some (Mock.show Mock.datedBugReport)].
Proof.
  split.
  - destruct (createdAt_defaults_to_request_time FileTypes RBasic
                (SubmitBugReport Mock.mockBugReport) _ Mock.mockBugReport
                (Mock.env (Responded 200 "ok") (Return Mock.successBody))
                (Mock.client RBasic Mock.mockCredentials)
                (or_introl eq_refl) eq_refl eq_refl)
      as (req & fields & sentFields & Hfields & Hsent & Hbody & Habsent & _).
    injection Hfields as <-.
    destruct (Habsent eq_refl) as (_ & _ & Hlast & _).
    rewrite Hsent. cbn [map]. rewrite Hbody. by rewrite (Hlast eq_refl).
  - destruct (createdAt_defaults_to_request_time FileTypes RChecked
                (SubmitBugReportWithProgress Mock.datedBugReport) _
                Mock.datedBugReport
                (Mock.env (Responded 200 "ok") (Return Mock.successBody))
                (Mock.client RChecked Mock.mockCredentials)
                (or_intror eq_refl) eq_refl eq_refl)
      as (req & fields & sentFields & Hfields & Hsent & Hbody & _ & Hpresent & _).
    injection Hfields as <-.
    rewrite Hsent. cbn [map]. rewrite Hbody.
    by rewrite (Hpresent 1600000000000%Z eq_refl).
Defined.

(** C8, witness: statuses 200 and 201. *)
Lemma success_body_passed_through_witness :
  outcome (Basic.submitBugReport ImageTypes Mock.mockBugReport
             (Mock.env (Responded 200 "ok") (Return Mock.successBody))
             (Mock.client RBasic Mock.mockCredentials))
  = Fulfilled Mock.successBody
  /\ outcome (Cors.getBugReport "123"
                (Mock.env (Responded 201 "ok") (Return Mock.successBody))
                (Mock.client RCors Mock.mockCredentials))
     = Fulfilled Mock.successBody.
Proof.
  split.
  - apply (success_body_passed_through ImageTypes RBasic
             (SubmitBugReport Mock.mockBugReport) _ _ _ 200 "ok");
      [reflexivity | reflexivity | intros; reflexivity | lia | reflexivity].
  - apply (success_body_passed_through FileTypes RCors (GetBugReport "123")
             _ _ _ 201 "ok");
      [reflexivity | exact I | intros; reflexivity | lia | reflexivity].
Defined.



(** C10, counterexample.  A payload within the bounds and with a valid
    severity whose [createdAt] is a string does not pass the
    [BugReportSchema] of the claim: [submitBugReport] stops with the
    validation error and sends nothing.  Nor does a payload within the bounds
    pass the earlier schema when its tag list is empty. *)
Lemma bounds_and_severity_do_not_suffice :
  let env := Mock.env (Responded 200 "ok") (Return Mock.successBody) in
  let this := Mock.client RBasic Mock.mockCredentials in
  let report := JObj [("title", JStr "Test Bug");
                      ("description", JStr "This is a test bug report");
                      ("severity", JStr "HIGH");
                      ("tags", JArr [JStr "UI"]);
                      ("createdAt", JStr "2024-01-01")] in
  let untagged := JObj [("title", JStr "Test Bug");
                        ("description", JStr "This is a test bug report");
                        ("severity", JStr "HIGH");
                        ("tags", JArr [])] in
  within_bounds report
  /\ accepts env TypesFile.BugReportSchema report = false
  /\ Basic.submitBugReport FileTypes report env this
     = mkRun this []
         (Rejected (mkError Error "Invalid bug report data: [issues]"))
  /\ within_bounds untagged
  /\ accepts env TypesImage.BugReportSchema untagged = false
  /\ Basic.submitBugReport ImageTypes untagged env this
     = mkRun this []
         (Rejected (mkError Error "Invalid bug report data: [issues]")).
Proof.
  cbv zeta. split_and!; try (by vm_compute).
  - exists "Test Bug", "This is a test bug report", "HIGH", ["UI"].
    split_and!; try reflexivity; try (simpl; lia).
    + simpl. tauto.
    + repeat constructor; simpl; tauto.
  - exists "Test Bug", "This is a test bug report", "HIGH", [].
    split_and!; try reflexivity; try (simpl; lia).
    + simpl. tauto.
    + constructor.
Qed.

(** C10, witness: the invalid and the valid report of the test suite. *)
Lemma BugReportSchema_bounds_witness :
  let env := Mock.env (Responded 200 "ok") (Return Mock.successBody) in
  let this := Mock.client RBasic Mock.mockCredentials in
  Basic.submitBugReport FileTypes Mock.invalidBugReport env this
  = mkRun this []
      (Rejected (mkError Error "Invalid bug report data: [issues]"))
  /\ accepts env TypesFile.BugReportSchema Mock.mockBugReport = true
  /\ exists req,
       sent (Basic.submitBugReport FileTypes Mock.mockBugReport env this) = [req].
Proof.
  cbv zeta.
  assert (within_bounds Mock.mockBugReport) as Hin.
  { exists "Test Bug", "This is a test bug report", "HIGH", ["UI"; "FUNCTIONALITY"].
    split_and!; try reflexivity; try (simpl; lia).
    - simpl. tauto.
    - repeat constructor; simpl; tauto. }
  split.
  - destruct (BugReportSchema_bounds FileTypes RBasic _
                (Mock.env (Responded 200 "ok") (Return Mock.successBody))
                (Mock.client RBasic Mock.mockCredentials)
                Mock.invalidBugReport TypesFile.BugReportSchema eq_refl eq_refl)
      as (Hbad & _).
    apply Hbad. left. exists EmptyString. split; [reflexivity | left; reflexivity].
  - destruct (BugReportSchema_bounds FileTypes RBasic _
                (Mock.env (Responded 200 "ok") (Return Mock.successBody))
                (Mock.client RBasic Mock.mockCredentials)
                Mock.mockBugReport TypesFile.BugReportSchema eq_refl eq_refl)
      as (_ & Hgood).
    destruct (Hgood Hin) as (Hiff & Hsends & _).
    assert (accepts (Mock.env (Responded 200 "ok") (Return Mock.successBody))
              TypesFile.BugReportSchema Mock.mockBugReport = true) as Hok.
    { apply Hiff. left. split; [reflexivity|]. split; left; reflexivity. }
    split; [exact Hok | exact (Hsends Hok)].
Defined.

(** The earlier schema asks for at least one tag ([.min(1)]); the later one
    takes an empty list. *)
Example earlier_schema_wants_a_tag :
  let env := Mock.env (Responded 200 "ok") (Return Mock.successBody) in
  let report := JObj [("title", JStr "Test Bug");
                      ("description", JStr "This is a test bug report");
                      ("severity", JStr "LOW");
                      ("tags", JArr [])] in
  accepts env TypesImage.BugReportSchema report = false
  /\ accepts env TypesFile.BugReportSchema report = true.
Proof. by vm_compute. Qed.

(** [src/__tests__/client.test.ts], "should submit bug report" and "should
    throw error if credentials are not provided". *)
Example should_submit_bug_report :
  let env := Mock.env (Responded 200 "ok") (Return Mock.successBody) in
  let run := Basic.submitBugReport ImageTypes Mock.mockBugReport env
               (Mock.client RBasic Mock.mockCredentials) in
  outcome run = Fulfilled Mock.successBody
  /\ map (fun req => (method req, url req, map_to_list (req_headers req))) (sent run)
     = [("POST", "https://api.test.com/bugs/reports",
         [("Content-Type", "application/json");
          ("Authorization", "Bearer test-secret");
          ("X-App-Key", "test-key");
          ("X-App-Name", "TestApp")])].
Proof. by vm_compute. Qed.

Example should_throw_without_credentials :
  Basic.constructor
    (O.mk (Some "https://api.test.com") (Some "test") (Some EmptyString)
       (Some "test") None)
  = Throw (mkError Error
             "App credentials (App Name, App Key, App Secret) are required").
Proof. reflexivity. Qed.

(** * Further properties of the client *)

Lemma call_validb_spec env types rev call :
  call_validb env types rev call = true <-> call_valid env types rev call.
Proof.
  unfold call_validb, call_valid. destruct (payload types rev call) as [[s r]|]; tauto.
Qed.

(** The requests of a run, for a payload that passes or not. *)
Ltac settle_sent :=
  try match goal with
      | |- context [transport ?env ?req] =>
          destruct (transport env req); cbn [sent final]
      end;
  cbn [sent final];
  try (rewrite sent_quiet by after_request);
  try (rewrite final_quiet by after_request).

(** X1.  A call sends exactly one request when its payload passes the
    schema (always, for the two retrieval methods) and none otherwise,
    whatever the network answers: no method retries or sends a second
    request. *)
Theorem one_request_per_call types rev call m env this :
  invoke types rev call = Some m ->
  length (sent (m env this))
  = if call_validb env types rev call then 1 else 0.
Proof.
  intros Hm. unfold call_validb.
  enter_any Hm; cbn [payload]; rewrite ?Hvalid; settle_sent; reflexivity.
Qed.

(** X2.  Every request goes to the instance's [apiUrl] followed by the
    revision's prefix and the path of the call, with the [id] of
    [getBugReport] put in as it is; submissions are [POST], retrievals are
    [GET] without a body; the transport is an [XMLHttpRequest] exactly for
    the methods that track upload progress that way. *)
Theorem request_line types rev call m env this req :
  invoke types rev call = Some m ->
  req ∈ sent (m env this) ->
  method req = verb call
  /\ url req = apiUrl this ++ base_path rev ++ endpoint call
  /\ (via req = UseXhr <-> uses_xhr rev call = true)
  /\ (verb call = "GET" -> body req = NoBody).
Proof.
  intros Hm Hin. revert Hin.
  enter_any Hm; intros Hin; the_request Hin; unfold Cors.request;
    cbn [method url via body verb base_path endpoint uses_xhr apiUrl];
    split_and!; try reflexivity; try done.
Qed.

(** X3.  [getBugReport("tags")] sends the very request of [getBugTags].
    The two calls end alike unless the answer has status 404, and in the
    [handleResponse] revision they are the same run. *)
Theorem getBugReport_tags_is_getBugTags types rev tags report env this :
  invoke types rev GetBugTags = Some tags ->
  invoke types rev (GetBugReport "tags") = Some report ->
  sent (report env this) = sent (tags env this)
  /\ final (report env this) = final (tags env this)
  /\ (forall req st text,
        sent (tags env this) = [req] ->
        transport env req = Responded st text ->
        st <> 404%Z ->
        outcome (report env this) = outcome (tags env this))
  /\ (rev = RCors -> report env this = tags env this).
Proof.
  intros Ht Hr.
  destruct rev; simpl in Ht, Hr; try discriminate Ht;
    injection Ht as <-; injection Hr as <-; unfold_methods; step;
    unfold Cors.request, Cors.defaultFetchOptions;
    cbn [init_headers init_credentials init_mode];
    try change ("/bugs/" ++ "tags") with "/bugs/tags";
    try change ("/api/bugs/" ++ "tags") with "/api/bugs/tags";
    match goal with
    | |- context [transport ?env ?req] =>
        destruct (transport env req) as [st0 text0|e] eqn:Hnet
    end;
    cbn [sent final outcome];
    rewrite ?sent_quiet, ?final_quiet by after_request;
    (split_and!; [reflexivity | reflexivity | | try done]).
  all: try (intros; reflexivity).
  all: try (intros req st text [= <-] Hnet' Hst; rewrite Hnet in Hnet'; try done;
            injection Hnet' as -> ->;
            destruct (negb (ok (mkResponse st text))); [|reflexivity];
            unfold throw_mapped_error, throw_api_error;
            cbn [status]; by rewrite (proj2 (Z.eqb_neq st 404) Hst)).
Qed.

Lemma final_of_call types rev call m env this :
  invoke types rev call = Some m ->
  final (m env this)
  = if writes_headers rev call && call_validb env types rev call
    then mkClient (apiUrl this)
           (<["Content-Type" := "multipart/form-data"]> (headers this))
    else this.
Proof.
  intros Hm. unfold call_validb.
  enter_any Hm; cbn [payload writes_headers andb]; rewrite ?Hvalid;
    settle_sent; reflexivity.
Qed.

(** X4.  No method changes [apiUrl], nor any header other than
    [Content-Type].  Every call leaves the instance as it was, except a
    progress upload of the [Upload] revision with a valid payload, which
    leaves [Content-Type] at ["multipart/form-data"] whatever the network
    answers; repeating a call changes nothing further. *)
Theorem instance_after_call types rev call m env this :
  invoke types rev call = Some m ->
  apiUrl (final (m env this)) = apiUrl this
  /\ (forall k, k <> "Content-Type" ->
        headers (final (m env this)) !! k = headers this !! k)
  /\ (writes_headers rev call && call_validb env types rev call = false ->
      final (m env this) = this)
  /\ (writes_headers rev call && call_validb env types rev call = true ->
      headers (final (m env this)) !! "Content-Type" = Some "multipart/form-data")
  /\ final (m env (final (m env this))) = final (m env this).
Proof.
  intros Hm.
  rewrite (final_of_call _ _ _ _ env (final (m env this)) Hm).
  rewrite (final_of_call _ _ _ _ env this Hm).
  destruct (writes_headers rev call && call_validb env types rev call);
    cbn [apiUrl headers]; split_and!; try done.
  - intros k Hk. by rewrite lookup_insert_ne.
  - intros _. by rewrite lookup_insert_eq.
  - by rewrite insert_insert_eq.
Qed.

(** X5.  In the [Cors] revision every request asks for credentials, and
    every [fetch] request for mode ["cors"]; the other revisions set
    neither. *)
Theorem cors_options_on_every_request types rev call m env this req :
  invoke types rev call = Some m ->
  req ∈ sent (m env this) ->
  credentials req = match rev with
                    | RCors => Some "include"
                    | _ => None
                    end
  /\ mode req = match rev with
                | RCors => if uses_xhr rev call then None else Some "cors"
                | _ => None
                end.
Proof.
  intros Hm Hin. revert Hin.
  enter_any Hm; intros Hin; the_request Hin; unfold Cors.request;
    cbn [credentials mode init_credentials init_mode]; by split.
Qed.

(** X6.  The [Content-Type] each method sends: none on the uploads of the
    [Cors] revision, ["multipart/form-data"] on the uploads of [Upload],
    ["application/json"] on every JSON request of [Checked], and the
    instance's own value everywhere else. *)
Theorem content_type_sent types rev call m env this req :
  invoke types rev call = Some m ->
  req ∈ sent (m env this) ->
  req_headers req !! "Content-Type"
  = match rev, call with
    | RCors, (SubmitBugReportWithFile _ | SubmitBugReportWithFileProgress _) => None
    | RUpload, (SubmitBugReportWithFile _ | SubmitBugReportWithFileProgress _) =>
        Some "multipart/form-data"
    | RChecked, (SubmitBugReportWithFile _ | SubmitBugReportWithFileProgress _) =>
        headers this !! "Content-Type"
    | RChecked, _ => Some "application/json"
    | _, _ => headers this !! "Content-Type"
    end.
Proof.
  intros Hm Hin. revert Hin.
  enter_any Hm; intros Hin; the_request Hin;
    rewrite ?lookup_insert_eq, ?lookup_delete_eq; try reflexivity.
  all: rewrite map_lookup_filter; destruct (headers this !! "Content-Type");
    cbn; [|done]; by rewrite option_guard_False by (intros H; by apply H).
Qed.

(** ** Responses the envelope lemmas do not cover *)

Lemma json_run_Throw env this st text e :
  JSON_parse env text = Throw e ->
  json (mkResponse st text) env this = mkRun this [] (Rejected e).
Proof. intros H. unfold json, bind, ask; simpl. by rewrite H. Qed.

Lemma json_run_Return env this st text data :
  JSON_parse env text = Return data ->
  json (mkResponse st text) env this = mkRun this [] (Fulfilled data).
Proof. intros H. unfold json, bind, ask; simpl. by rewrite H. Qed.

Lemma throw_api_error_unparseable env this st text e :
  JSON_parse env text = Throw e ->
  throw_api_error (A := JsVal) (mkResponse st text) env this
  = mkRun this [] (Rejected e).
Proof.
  intros H. unfold throw_api_error. rewrite bind_ask.
  unfold bind. by rewrite (json_run_Throw _ _ _ _ _ H).
Qed.

Lemma throw_mapped_error_unparseable env this st text e :
  JSON_parse env text = Throw e ->
  throw_mapped_error (A := JsVal) (mkResponse st text) env this
  = mkRun this [] (Rejected e).
Proof.
  intros H. unfold throw_mapped_error. rewrite bind_ask.
  unfold bind. by rewrite (json_run_Throw _ _ _ _ _ H).
Qed.

(** X7.  When a 2xx answer does not parse as JSON, a [fetch] method
    rejects with the parser's error, the XHR [submitBugReportWithProgress]
    rejects with ["Failed to parse server response"], and
    [submitBugReportWithFileProgress] leaves its promise unsettled. *)
Theorem unparseable_success_body types rev call m env this st text e :
  invoke types rev call = Some m ->
  call_valid env types rev call ->
  (forall req, transport env req = Responded st text) ->
  (200 <= st <= 299)%Z ->
  JSON_parse env text = Throw e ->
  outcome (m env this)
  = if uses_xhr rev call then
      match call with
      | SubmitBugReportWithProgress _ =>
          Rejected (mkError Error "Failed to parse server response")
      | _ => Pending
      end
    else Rejected e.
Proof.
  intros Hm Hvalid Hnet Hst Hparse.
  assert (ok (mkResponse st text) = true) as Hok by (unfold ok; simpl; lia).
  assert ((200 <=? st)%Z && (st <? 300)%Z = true) as Hxhr by lia.
  enter Hm Hvalid; rewrite Hnet; cbn [final sent outcome uses_xhr];
    unfold upload_listeners, Checked.progress_listeners;
    rewrite ?bind_ask, ?Hok, ?Hxhr, ?Hparse; cbn [negb];
    by rewrite ?(json_run_Throw _ _ _ _ _ Hparse).
Qed.

(** X8.  When a non-2xx answer does not parse as JSON, a [fetch] method
    rejects with the parser's error and an XHR method with a plain [Error]
    that names the status. *)
Theorem unparseable_error_body types rev call m env this st text e :
  invoke types rev call = Some m ->
  call_valid env types rev call ->
  (forall req, transport env req = Responded st text) ->
  ~ (200 <= st <= 299)%Z ->
  JSON_parse env text = Throw e ->
  outcome (m env this)
  = Rejected (if uses_xhr rev call
              then mkError Error (xhr_status_message call st)
              else e).
Proof.
  intros Hm Hvalid Hnet Hst Hparse.
  assert (ok (mkResponse st text) = false) as Hok by (unfold ok; simpl; lia).
  assert ((200 <=? st)%Z && (st <? 300)%Z = false) as Hxhr by lia.
  enter Hm Hvalid; rewrite Hnet; cbn [final sent outcome uses_xhr];
    unfold upload_listeners, Checked.progress_listeners;
    rewrite ?bind_ask, ?Hok, ?Hxhr, ?Hparse; cbn [negb and_then];
    by rewrite ?(throw_api_error_unparseable _ _ _ _ _ Hparse),
         ?(throw_mapped_error_unparseable _ _ _ _ _ Hparse).
Qed.

(** Reading [code] off a missing [meta] throws a [TypeError]. *)
Lemma envelope_without_meta_throws env data :
  prop data "meta" = JUndefined ->
  exists message,
    (let* meta := get_prop env data "meta" in new_ApiBugReportError env meta)
    = Throw (mkError TypeError message)
    /\ (let* meta := get_prop env data "meta" in new_NotFoundBugReportError env meta)
       = Throw (mkError TypeError message).
Proof.
  intros Hmeta.
  destruct data; cbn [get_prop and_then]; try rewrite Hmeta;
    cbn [new_ApiBugReportError new_NotFoundBugReportError get_prop and_then]; eauto.
Qed.

Lemma throw_api_error_throws env this st text data e :
  JSON_parse env text = Return data ->
  (let* meta := get_prop env data "meta" in new_ApiBugReportError env meta) = Throw e ->
  throw_api_error (A := JsVal) (mkResponse st text) env this
  = mkRun this [] (Rejected e).
Proof.
  intros Hparse Hthrow. unfold throw_api_error.
  rewrite bind_ask, (bind_json _ _ _ _ _ _ Hparse).
  destruct (get_prop env data "meta") as [meta|e']; cbn [and_then] in Hthrow.
  - rewrite bind_lift_Return, Hthrow. reflexivity.
  - injection Hthrow as ->. reflexivity.
Qed.

Lemma throw_mapped_error_throws env this st text data e :
  JSON_parse env text = Return data ->
  (let* meta := get_prop env data "meta" in new_ApiBugReportError env meta) = Throw e ->
  (let* meta := get_prop env data "meta" in new_NotFoundBugReportError env meta)
  = Throw e ->
  throw_mapped_error (A := JsVal) (mkResponse st text) env this
  = mkRun this [] (Rejected e).
Proof.
  intros Hparse Hapi Hnf. unfold throw_mapped_error.
  rewrite bind_ask, (bind_json _ _ _ _ _ _ Hparse).
  destruct (get_prop env data "meta") as [meta|e']; cbn [and_then] in Hapi, Hnf.
  - rewrite bind_lift_Return. cbn [status].
    destruct (st =? 404)%Z; [rewrite Hnf | rewrite Hapi]; reflexivity.
  - injection Hapi as ->. reflexivity.
Qed.

(** X9.  When a non-2xx answer parses but has no [meta], a [fetch] method
    rejects with a [TypeError] (from reading [code] off the missing
    envelope), and an XHR method with the plain [Error] that names the
    status. *)
Theorem error_body_without_meta types rev call m env this st text data :
  invoke types rev call = Some m ->
  call_valid env types rev call ->
  (forall req, transport env req = Responded st text) ->
  ~ (200 <= st <= 299)%Z ->
  JSON_parse env text = Return data ->
  prop data "meta" = JUndefined ->
  exists message,
    outcome (m env this)
    = Rejected (if uses_xhr rev call
                then mkError Error (xhr_status_message call st)
                else mkError TypeError message).
Proof.
  intros Hm Hvalid Hnet Hst Hparse Hmeta.
  destruct (envelope_without_meta_throws env data Hmeta) as (message & Hapi & Hnf).
  exists message.
  assert (ok (mkResponse st text) = false) as Hok by (unfold ok; simpl; lia).
  assert ((200 <=? st)%Z && (st <? 300)%Z = false) as Hxhr by lia.
  enter Hm Hvalid; rewrite Hnet; cbn [final sent outcome uses_xhr];
    unfold upload_listeners, Checked.progress_listeners;
    rewrite ?bind_ask, ?Hok, ?Hxhr, ?Hparse; cbn [negb and_then];
    rewrite ?Hapi;
    by rewrite ?(throw_api_error_throws _ _ _ _ _ _ Hparse Hapi),
         ?(throw_mapped_error_throws _ _ _ _ _ _ Hparse Hapi Hnf).
Qed.

(** The error branches end in a rejection, whatever the body holds. *)
Lemma throw_api_error_rejects env this response :
  exists e, outcome (throw_api_error (A := JsVal) response env this) = Rejected e.
Proof.
  unfold throw_api_error, json. unfold bind, ask, lift; simpl.
  destruct (JSON_parse env (response_text response)) as [data|e]; simpl; [|eauto].
  destruct (get_prop env data "meta") as [meta|e]; simpl; [|eauto].
  destruct (new_ApiBugReportError env meta) as [err|e]; simpl; eauto.
Qed.

Lemma throw_mapped_error_rejects env this response :
  exists e, outcome (throw_mapped_error (A := JsVal) response env this) = Rejected e.
Proof.
  unfold throw_mapped_error, json. unfold bind, ask, lift; simpl.
  destruct (JSON_parse env (response_text response)) as [data|e]; simpl; [|eauto].
  destruct (get_prop env data "meta") as [meta|e]; simpl; [|eauto].
  destruct (status response =? 404)%Z; simpl.
  - destruct (new_NotFoundBugReportError env meta) as [err|e]; simpl; eauto.
  - destruct (new_ApiBugReportError env meta) as [err|e]; simpl; eauto.
Qed.

(** X10.  A non-2xx answer to a valid call always ends in a rejection,
    whatever the body holds: the promise is neither fulfilled nor left
    unsettled. *)
Theorem error_status_always_rejects types rev call m env this st text :
  invoke types rev call = Some m ->
  call_valid env types rev call ->
  (forall req, transport env req = Responded st text) ->
  ~ (200 <= st <= 299)%Z ->
  exists e, outcome (m env this) = Rejected e.
Proof.
  intros Hm Hvalid Hnet Hst.
  assert (ok (mkResponse st text) = false) as Hok by (unfold ok; simpl; lia).
  assert ((200 <=? st)%Z && (st <? 300)%Z = false) as Hxhr by lia.
  enter Hm Hvalid; rewrite Hnet; cbn [final sent outcome];
    unfold upload_listeners, Checked.progress_listeners;
    rewrite ?bind_ask, ?Hok, ?Hxhr; cbn [negb];
    first [ apply throw_api_error_rejects | apply throw_mapped_error_rejects
          | match goal with
            | |- context [match ?x with Return _ => _ | Throw _ => _ end] =>
                destruct x; cbn [outcome throw]; eauto
            end ].
Qed.

(** ** Where the API error classes come from *)

Lemma get_prop_throws env v k e :
  get_prop env v k = Throw e -> err_class e = TypeError.
Proof. unfold get_prop. destruct v; try done; by intros [= <-]. Qed.

Lemma interpolate_throws env v e :
  interpolate env v = Throw e -> err_class e = TypeError.
Proof. unfold interpolate. destruct (ToString env v); [done|]. by intros [= <-]. Qed.

(** Walks through the reads and conversions of an error constructor. *)
Ltac through_constructor :=
  repeat match goal with
         | |- context [get_prop ?env ?v ?k] =>
             let E := fresh "E" in
             destruct (get_prop env v k) eqn:E; cbn [and_then];
             [|try done; intros [= <-]; by eapply get_prop_throws]
         | |- context [interpolate ?env ?v] =>
             let E := fresh "E" in
             destruct (interpolate env v) eqn:E; cbn [and_then];
             [|try done; intros [= <-]; by eapply interpolate_throws]
         end.

Lemma new_ApiBugReportError_class env meta e :
  new_ApiBugReportError env meta = Return e -> err_class e = ApiBugReportError.
Proof.
  unfold new_ApiBugReportError. through_constructor. by intros [= <-].
Qed.

Lemma new_NotFoundBugReportError_class env meta e :
  new_NotFoundBugReportError env meta = Return e ->
  err_class e = NotFoundBugReportError.
Proof.
  unfold new_NotFoundBugReportError. through_constructor. by intros [= <-].
Qed.

Lemma new_ApiBugReportError_throws env meta e :
  new_ApiBugReportError env meta = Throw e -> err_class e = TypeError.
Proof.
  unfold new_ApiBugReportError. through_constructor. done.
Qed.

Lemma new_NotFoundBugReportError_throws env meta e :
  new_NotFoundBugReportError env meta = Throw e -> err_class e = TypeError.
Proof.
  unfold new_NotFoundBugReportError. through_constructor. done.
Qed.

Section Provenance.
Variable env : Env.
Hypothesis Hforeign : foreign_platform_errors env.
Variables (this : Client) (e : JsError).
Hypothesis Hclass : is_api_class (err_class e) = true.

Lemma json_never_api response :
  outcome (json response env this) <> Rejected e.
Proof.
  unfold json, bind, ask, lift; simpl.
  destruct (JSON_parse env (response_text response)) as [data|e0] eqn:Hparse;
    simpl; [done|].
  intros [= ->]. by rewrite (proj2 Hforeign _ _ Hparse) in Hclass.
Qed.

Lemma throw_api_error_provenance response :
  outcome (throw_api_error (A := JsVal) response env this) = Rejected e ->
  err_class e = ApiBugReportError.
Proof.
  unfold throw_api_error, json. unfold bind, ask, lift; simpl.
  destruct (JSON_parse env (response_text response)) as [data|e0] eqn:Hparse; simpl.
  2: { intros [= ->]. by rewrite (proj2 Hforeign _ _ Hparse) in Hclass. }
  destruct (get_prop env data "meta") as [meta|e0] eqn:Hmeta; simpl.
  2: { intros [= ->]. by rewrite (get_prop_throws _ _ _ _ Hmeta) in Hclass. }
  destruct (new_ApiBugReportError env meta) as [err|e0] eqn:Hnew; simpl.
  - intros [= ->]. by apply new_ApiBugReportError_class in Hnew.
  - intros [= ->]. by rewrite (new_ApiBugReportError_throws _ _ _ Hnew) in Hclass.
Qed.

Lemma throw_mapped_error_provenance response :
  outcome (throw_mapped_error (A := JsVal) response env this) = Rejected e ->
  (status response = 404%Z /\ err_class e = NotFoundBugReportError)
  \/ (status response <> 404%Z /\ err_class e = ApiBugReportError).
Proof.
  unfold throw_mapped_error, json. unfold bind, ask, lift; simpl.
  destruct (JSON_parse env (response_text response)) as [data|e0] eqn:Hparse; simpl.
  2: { intros [= ->]. by rewrite (proj2 Hforeign _ _ Hparse) in Hclass. }
  destruct (get_prop env data "meta") as [meta|e0] eqn:Hmeta; simpl.
  2: { intros [= ->]. by rewrite (get_prop_throws _ _ _ _ Hmeta) in Hclass. }
  destruct (status response =? 404)%Z eqn:Hst; simpl.
  - apply Z.eqb_eq in Hst.
    destruct (new_NotFoundBugReportError env meta) as [err|e0] eqn:Hnew; simpl.
    + intros [= ->]. left. split; [done|].
      by apply new_NotFoundBugReportError_class in Hnew.
    + intros [= ->].
      by rewrite (new_NotFoundBugReportError_throws _ _ _ Hnew) in Hclass.
  - apply Z.eqb_neq in Hst.
    destruct (new_ApiBugReportError env meta) as [err|e0] eqn:Hnew; simpl.
    + intros [= ->]. right. split; [done|].
      by apply new_ApiBugReportError_class in Hnew.
    + intros [= ->]. by rewrite (new_ApiBugReportError_throws _ _ _ Hnew) in Hclass.
Qed.

Lemma listeners_provenance ev :
  outcome (upload_listeners ev env this) = Rejected e
  \/ outcome (Checked.progress_listeners ev env this) = Rejected e ->
  err_class e = ApiBugReportError
  /\ exists st text, ev = on_load st text /\ ~ (200 <= st <= 299)%Z.
Proof.
  unfold upload_listeners, Checked.progress_listeners. rewrite !bind_ask.
  destruct ev as [st text|]; cbn [outcome throw].
  2: { intros [[= <-] | [= <-]]; discriminate Hclass. }
  destruct ((200 <=? st)%Z && (st <? 300)%Z) eqn:Hst.
  { destruct (JSON_parse env text); cbn [outcome throw ret never];
      intros [H | H]; try discriminate H; injection H as <-; discriminate Hclass. }
  assert (~ (200 <= st <= 299)%Z) as Hno by lia.
  destruct (JSON_parse env text) as [data|e0]; cbn [and_then outcome throw].
  2: { intros [[= <-] | [= <-]]; discriminate Hclass. }
  destruct (get_prop env data "meta") as [meta|e0]; cbn [and_then outcome throw].
  2: { intros [[= <-] | [= <-]]; discriminate Hclass. }
  destruct (new_ApiBugReportError env meta) as [err|e0] eqn:Hnew;
    cbn [outcome throw].
  2: { intros [[= <-] | [= <-]]; discriminate Hclass. }
  intros H. assert (err = e) as -> by (destruct H as [[= ->] | [= ->]]; done).
  split; [by apply new_ApiBugReportError_class in Hnew | eauto].
Qed.

End Provenance.

Lemma not_ok_status response :
  ok response = false -> ~ (200 <= status response <= 299)%Z.
Proof. unfold ok. lia. Qed.

(** X11.  Where the platform's own errors are not of these classes, a
    promise is rejected with an [ApiBugReportError] or a
    [NotFoundBugReportError] only after its request was answered with a
    non-2xx status; a [NotFoundBugReportError] only for status 404, from a
    method that tests for it.  Validation and transport failures never
    produce either. *)
Theorem api_errors_answer_error_statuses types rev call m env this e :
  invoke types rev call = Some m ->
  foreign_platform_errors env ->
  outcome (m env this) = Rejected e ->
  is_api_class (err_class e) = true ->
  exists req st text,
    sent (m env this) = [req]
    /\ transport env req = Responded st text
    /\ ~ (200 <= st <= 299)%Z
    /\ (err_class e = NotFoundBugReportError ->
        st = 404%Z /\ singles_out_404 rev call = true).
Proof.
  intros Hm Hforeign Hout Hclass. revert Hout.
  enter_any Hm;
    try (cbn [outcome]; intros [= <-]; discriminate Hclass);
    match goal with
    | |- context [transport ?env ?req] =>
        destruct (transport env req) as [st text|e0] eqn:Hnet;
        cbn [outcome sent final]; rewrite ?sent_quiet by after_request;
        [ intros Hout; exists req, st, text
        | first
            [ intros [= <-]; by rewrite (proj1 Hforeign _ _ Hnet) in Hclass
            | intros Hout;
              first
                [ destruct (listeners_provenance env _ e Hclass _ (or_introl Hout))
                    as (_ & ? & ? & ? & _)
                | destruct (listeners_provenance env _ e Hclass _ (or_intror Hout))
                    as (_ & ? & ? & ? & _) ];
              discriminate ] ]
    end.
  all: cbn [singles_out_404].
  all: try (first
              [ destruct (listeners_provenance env _ e Hclass _ (or_introl Hout))
                  as (Hc & st' & text' & [= <- <-] & Hno)
              | destruct (listeners_provenance env _ e Hclass _ (or_intror Hout))
                  as (Hc & st' & text' & [= <- <-] & Hno) ];
            split_and!; try done; intros Hnf; by rewrite Hnf in Hc).
  all: destruct (negb (ok (mkResponse st text))) eqn:Hok;
    [ apply negb_true_iff, not_ok_status in Hok; cbn [status] in Hok
    | by apply json_never_api in Hout ].
  all: first
    [ apply (throw_api_error_provenance env Hforeign this e Hclass) in Hout;
      split_and!; try done; intros Hnf; by rewrite Hnf in Hout
    | apply (throw_mapped_error_provenance env Hforeign this e Hclass) in Hout;
      cbn [status] in Hout;
      destruct Hout as [[-> Hc] | [Hst Hc]];
      split_and!; try done; intros Hnf; by rewrite Hnf in Hc ].
Qed.

(** ** What the schemas accept, exactly *)

(** X12.  The later [BugReportSchema] accepts exactly the payloads with a
    title of 1 to 200 characters, a non-empty description, a severity of the
    enum, a list of tags of the enum, an absent [file] or a list of strings,
    and an absent [createdAt] or a date. *)
Theorem BugReportSchema_accepts_iff env report :
  accepts env TypesFile.BugReportSchema report = true
  <-> within_bounds report /\ optional_fields_typed report.
Proof. apply later_schema_accepts_iff. Qed.

Lemma accepts_file_items env items :
  forallb
    (accepts env
       (z_instanceof_File
          (fun file => TypesFile.includes TypesFile.allowed_types (file_type file))))
    items = true
  <-> exists files, items = map JFile files
                    /\ Forall (fun file => In (file_type file) image_types) files.
Proof.
  split.
  - intros (files & -> & Hall)%accepts_files_inv. exists files. split; [done|].
    rewrite forallb_forall in Hall. apply Forall_forall. intros f Hf.
    apply includes_allowed_types, Hall. by apply list_elem_of_In.
  - intros (files & -> & Hall). rewrite forallb_forall.
    intros x (f & <- & Hin)%in_map_iff. cbn [accepts].
    apply includes_allowed_types. rewrite Forall_forall in Hall.
    apply Hall. by apply list_elem_of_In.
Qed.

(** X13.  [BugReportFileSchema] accepts exactly the payloads within the
    same bounds whose [file] is a list (possibly empty) of files of type
    [image/png], [image/jpeg] or [image/jpg], with an absent [createdAt] or a
    date; the hole at the end of the list of types admits nothing. *)
Theorem BugReportFileSchema_accepts_iff env report :
  accepts env TypesFile.BugReportFileSchema report = true
  <-> within_bounds report /\ upload_fields_typed report.
Proof.
  unfold TypesFile.BugReportFileSchema. rewrite accepts_object.
  cbn [forallb fst snd]. rewrite !andb_true_iff.
  pose proof (required_fields_iff env report None) as Hreq.
  rewrite accepts_optional_date. unfold upload_fields_typed.
  split.
  - intros (Hobj & Ht & Hd & Hs & Hg & Hf & Hc & _).
    split; [apply Hreq; by split_and! | split; [|done]].
    apply accepts_array in Hf as (items & -> & Hall & _).
    apply accepts_file_items in Hall as (files & -> & Hfiles). eauto.
  - intros (Hin & (files & Hf & Hfiles) & Hc).
    destruct (proj2 Hreq) as (Ht & Hd & Hs & Hg); [split; [done|]; by intros|].
    split_and!; try done; [by apply within_bounds_object|].
    rewrite Hf.
    change (forallb
              (accepts env
                 (z_instanceof_File
                    (fun file =>
                       TypesFile.includes TypesFile.allowed_types (file_type file))))
              (map JFile files) && true = true).
    rewrite andb_true_r. apply accepts_file_items. eauto.
Qed.

(** X14.  The earlier [BugReportSchema] accepts exactly the payloads
    within the same bounds that have at least one tag, an absent [image] or a
    string, an absent [metadata] or an object, and an absent [createdAt] or a
    date. *)
Theorem earlier_BugReportSchema_accepts_iff env report :
  accepts env TypesImage.BugReportSchema report = true
  <-> within_bounds report
      /\ prop report "tags" <> JArr []
      /\ earlier_fields_typed report.
Proof. apply earlier_schema_accepts_iff. Qed.

(** ** Constructors *)

Lemma accepts_js_of env checks s :
  accepts env (z_string checks) (js_of s) = true
  <-> exists x, s = Some x /\ forallb (string_check env x) checks = true.
Proof.
  destruct s as [x|]; cbn [js_of accepts]; split.
  - eauto.
  - by intros (x' & [= <-] & H).
  - done.
  - by intros (x' & [=] & _).
Qed.

Lemma AppCredentialsSchema_accepts_iff env options :
  accepts env TypesFile.AppCredentialsSchema
    (JObj [("appUrl", js_of (O.apiUrl options));
           ("appKey", js_of (O.appKey options));
           ("appSecret", js_of (O.appSecret options))]) = true
  <-> exists u k s,
        O.apiUrl options = Some u /\ new_URL_ok env u = true
        /\ O.appKey options = Some k /\ 5 <= js_length k
        /\ O.appSecret options = Some s /\ 5 <= js_length s.
Proof.
  unfold TypesFile.AppCredentialsSchema. rewrite accepts_object.
  cbn [forallb fst snd is_object andb].
  change (prop _ "appUrl") with (js_of (O.apiUrl options)).
  change (prop _ "appKey") with (js_of (O.appKey options)).
  change (prop _ "appSecret") with (js_of (O.appSecret options)).
  rewrite !andb_true_iff, !accepts_js_of. cbn [forallb string_check].
  split.
  - intros ((u & Hu & Hurl) & (k & Hk & Hkey) & (s & Hs & Hsec) & _).
    rewrite andb_true_r in Hurl, Hkey, Hsec. apply Nat.leb_le in Hkey, Hsec.
    by exists u, k, s.
  - intros (u & k & s & Hu & Hurl & Hk & Hkey & Hs & Hsec).
    split_and!; try done; eexists; (split; [eassumption|]);
      rewrite andb_true_r; first [done | by apply Nat.leb_le].
Qed.

(** X15.  The constructor of the [Checked] revision yields an instance
    exactly when the URL parses and the key and the secret have at least five
    characters each; the instance then holds the URL, and [X-App-Key] and
    [Authorization: Bearer <secret>] under the custom headers. *)
Theorem checked_constructor_accepts_iff env options this :
  Checked.constructor env options = Return this
  <-> exists u k s,
        O.apiUrl options = Some u /\ new_URL_ok env u = true
        /\ O.appKey options = Some k /\ 5 <= js_length k
        /\ O.appSecret options = Some s /\ 5 <= js_length s
        /\ this = mkClient u
                    (custom_headers options
                     ∪ <["X-App-Key" := k]> (<["Authorization" := "Bearer " ++ s]> ∅)).
Proof.
  unfold Checked.constructor, parse.
  pose proof (AppCredentialsSchema_accepts_iff env options) as Hiff.
  destruct (accepts env TypesFile.AppCredentialsSchema _) eqn:Hok.
  - destruct (proj1 Hiff eq_refl) as (u & k & s & Hu & Hurl & Hk & Hkey & Hs & Hsec).
    rewrite Hu, Hk, Hs. cbn [text_of default]. split.
    + intros [= <-]. by exists u, k, s.
    + intros (u' & k' & s' & [= <-] & _ & [= <-] & _ & [= <-] & _ & ->). done.
  - split; [done|].
    intros (u & k & s & Hu & Hurl & Hk & Hkey & Hs & Hsec & _).
    assert (false = true) as Habs by (apply Hiff; by exists u, k, s). discriminate Habs.
Qed.

(** X16.  In the four revisions with guards, the constructor yields an
    instance exactly when the URL and every required credential are present
    and non-empty; the instance holds the URL as given; and a missing URL is
    reported as ["API URL is required"] whatever the credentials are. *)
Theorem guarded_constructors_accept_iff env rev options :
  rev <> RChecked ->
  (missing_credentials rev options = false
   <-> exists this, construct env rev options = Return this)
  /\ (forall this, construct env rev options = Return this ->
        O.apiUrl options = Some (apiUrl this) /\ apiUrl this <> EmptyString)
  /\ (falsy (O.apiUrl options) = true ->
      construct env rev options = Throw (mkError Error "API URL is required")).
Proof.
  intros Hrev. unfold missing_credentials.
  destruct rev; try done; cbn [construct requires_appName andb];
    unfold Basic.constructor, Streamed.constructor, Cors.constructor,
      Upload.constructor;
    destruct (O.apiUrl options) as [[|c u]|]; cbn [falsy orb text_of default];
    destruct (falsy (O.appName options)), (falsy (O.appKey options)),
      (falsy (O.appSecret options)); cbn [orb];
    (split_and!; [split; [first [done | eauto] | first [done | by intros [? [=]]]]
                 | intros this H; first [discriminate H | by injection H as <-]
                 | done]).
Qed.

(** X17.  [X-App-Name] is the custom entry when there is one; otherwise it
    is [appName] in the two revisions that ask for it, and absent in the
    others, which ignore [appName]. *)
Theorem app_name_header_only_where_required env rev options this :
  construct env rev options = Return this ->
  headers this !! "X-App-Name"
  = match custom_headers options !! "X-App-Name" with
    | Some v => Some v
    | None => if requires_appName rev then O.appName options else None
    end.
Proof.
  destruct rev; cbn [construct requires_appName];
    unfold Basic.constructor, Streamed.constructor, Cors.constructor,
      Upload.constructor, Checked.constructor;
    repeat match goal with
           | |- context [if ?b then _ else _] => destruct b eqn:?
           | |- context [match parse ?e ?s ?v with _ => _ end] => destruct (parse e s v)
           end;
    intros H; try discriminate H; injection H as <-; cbn [headers];
    rewrite lookup_union; destruct (custom_headers options !! "X-App-Name");
    try reflexivity.
  all: rewrite lookup_insert_ne, lookup_insert_eq by done;
    destruct (O.appName options) as [[|]|]; try done.
Qed.

(** ** The body of a submission *)

(** X18.  The object a JSON submission serializes has every property of
    the report with its value, those the schema does not know included (the
    parsed copy is dropped and the report itself is spread); only [createdAt]
    differs, and only when the report has none: it is then the current time,
    and otherwise the report's own. *)
Theorem submission_body_keeps_every_property types rev call m report env this :
  call = SubmitBugReport report \/ call = SubmitBugReportWithProgress report ->
  invoke types rev call = Some m ->
  call_valid env types rev call ->
  exists req sentObject,
    sent (m env this) = [req]
    /\ body_text (body req) = Some (JSON_stringify env sentObject)
    /\ is_object sentObject = true
    /\ (forall k, k <> "createdAt" -> prop sentObject k = prop report k)
    /\ (prop report "createdAt" = JUndefined ->
        prop sentObject "createdAt" = JDate (Date_now env))
    /\ (prop report "createdAt" <> JUndefined ->
        prop sentObject "createdAt" = prop report "createdAt").
Proof.
  intros Hcall Hm Hvalid.
  assert (prop report "createdAt" = JUndefined
          \/ exists ms, prop report "createdAt" = JDate ms) as Hdate.
  { destruct Hcall as [-> | ->], rev; simpl in Hm; try discriminate Hm;
      unfold call_valid in Hvalid; cbn [payload] in Hvalid;
      first [ exact (valid_report_createdAt _ _ _ Hvalid)
            | exact (valid_report_createdAt _ FileTypes _ Hvalid) ]. }
  destruct Hcall as [-> | ->]; enter Hm Hvalid;
    match goal with
    | |- context [transport ?env ?req] =>
        exists req;
        match req with
        | context [JSON_stringify _ ?obj] => exists obj
        end;
        split;
        [ destruct (transport env req); cbn [sent]; [|try reflexivity];
          try (rewrite sent_quiet by after_request); reflexivity
        | ]
    end;
    cbn [body body_text prop is_object]; (split; [reflexivity|]);
    (split; [reflexivity|]); split.
  all: try (intros k Hk; by rewrite lookup_set_field_ne by congruence).
  all: rewrite lookup_set_field_eq; cbn [default];
    destruct Hdate as [Hd | [ms Hd]]; cbn [prop] in Hd; rewrite Hd; cbn [nullish];
    split; intros; done.
Qed.

(** ** The error message, whatever primitives [meta] holds *)

Lemma interpolate_template_text env v s :
  template_text v s -> interpolate env v = Return s.
Proof. by intros []. Qed.

Section AnyEnvelope.
Variables (env : Env) (data : JsVal) (mfields : list (string * JsVal)).
Variables (code_text message_text : string).
Hypothesis Hmeta : prop data "meta" = JObj mfields.
Hypothesis Hcode : template_text (prop (JObj mfields) "code") code_text.
Hypothesis Hmessage : template_text (prop (JObj mfields) "message") message_text.

Lemma any_envelope_meta : get_prop env data "meta" = Return (JObj mfields).
Proof.
  destruct (prop_defined_JObj data "meta") as [fields ->]; [congruence|].
  by rewrite get_prop_JObj, Hmeta.
Qed.

Lemma new_ApiBugReportError_any :
  new_ApiBugReportError env (JObj mfields)
  = Return (mkError ApiBugReportError
              ("API Error [" ++ code_text ++ "]: " ++ message_text)).
Proof.
  unfold new_ApiBugReportError. rewrite !get_prop_JObj. cbn [and_then].
  rewrite (interpolate_template_text _ _ _ Hcode). cbn [and_then].
  by rewrite (interpolate_template_text _ _ _ Hmessage).
Qed.

Lemma new_NotFoundBugReportError_any :
  new_NotFoundBugReportError env (JObj mfields)
  = Return (mkError NotFoundBugReportError
              ("Not Found Error [" ++ code_text ++ "]: " ++ message_text)).
Proof.
  unfold new_NotFoundBugReportError. rewrite !get_prop_JObj. cbn [and_then].
  rewrite (interpolate_template_text _ _ _ Hcode). cbn [and_then].
  by rewrite (interpolate_template_text _ _ _ Hmessage).
Qed.

Variables (this : Client) (st : Z) (text : string).
Hypothesis Hparse : JSON_parse env text = Return data.

Lemma throw_api_error_any :
  throw_api_error (A := JsVal) (mkResponse st text) env this
  = mkRun this []
      (Rejected (mkError ApiBugReportError
                   ("API Error [" ++ code_text ++ "]: " ++ message_text))).
Proof.
  unfold throw_api_error. rewrite bind_ask, (bind_json _ _ _ _ _ _ Hparse).
  by rewrite any_envelope_meta, bind_lift_Return, new_ApiBugReportError_any.
Qed.

Lemma throw_mapped_error_any :
  throw_mapped_error (A := JsVal) (mkResponse st text) env this
  = mkRun this []
      (Rejected
         (if (st =? 404)%Z then
            mkError NotFoundBugReportError
              ("Not Found Error [" ++ code_text ++ "]: " ++ message_text)
          else
            mkError ApiBugReportError
              ("API Error [" ++ code_text ++ "]: " ++ message_text))).
Proof.
  unfold throw_mapped_error. rewrite bind_ask, (bind_json _ _ _ _ _ _ Hparse).
  rewrite any_envelope_meta, bind_lift_Return. cbn [status].
  destruct (st =? 404)%Z;
    by rewrite ?new_NotFoundBugReportError_any, ?new_ApiBugReportError_any.
Qed.

Lemma listener_any :
  (let* errorData := JSON_parse env text in
   let* meta := get_prop env errorData "meta" in
   new_ApiBugReportError env meta)
  = Return (mkError ApiBugReportError
              ("API Error [" ++ code_text ++ "]: " ++ message_text)).
Proof.
  rewrite Hparse. cbn [and_then]. rewrite any_envelope_meta. cbn [and_then].
  apply new_ApiBugReportError_any.
Qed.

End AnyEnvelope.


(** ** Progress tracking *)

Lemma filter_out_key (m : gmap string string) k :
  filter (fun kv => kv.1 ≠ k) m = delete k m.
Proof.
  apply map_eq. intros i. rewrite map_lookup_filter.
  destruct (decide (i = k)) as [->|Hne].
  - rewrite lookup_delete_eq. destruct (m !! k); cbn; [|done].
    by rewrite option_guard_False by (intros H; by apply H).
  - rewrite lookup_delete_ne by done. destruct (m !! i); cbn; [|done].
    by rewrite option_guard_True.
Qed.

(** X20.  A progress-tracking method sends what its plain counterpart
    sends: the same method, URL, headers and body (text or form), for a valid
    payload, and nothing for an invalid one. *)
Theorem progress_variants_send_the_same types rev report plain tracked env this :
  (invoke types rev (SubmitBugReport report) = Some plain
   /\ invoke types rev (SubmitBugReportWithProgress report) = Some tracked)
  \/ (invoke types rev (SubmitBugReportWithFile report) = Some plain
      /\ invoke types rev (SubmitBugReportWithFileProgress report) = Some tracked) ->
  map wire (sent (plain env this)) = map wire (sent (tracked env this)).
Proof.
  intros [[Hp Ht] | [Hp Ht]];
    destruct rev; simpl in Hp, Ht; try discriminate Hp; try discriminate Ht;
    injection Hp as <-; injection Ht as <-; unfold_methods;
    match goal with
    | |- context [bind (validate ?schema ?report) _ ?env _] =>
        let Hvalid := fresh "Hvalid" in
        destruct (accepts env schema report) eqn:Hvalid;
        [ rewrite !(bind_validate_ok _ _ _ _ _ Hvalid); open_payload Hvalid
        | by rewrite !(bind_validate_fail _ _ _ _ _ Hvalid) ]
    end;
    step;
    repeat match goal with
           | |- context [transport ?env ?req] =>
               destruct (transport env req); cbn [sent]
           end;
    cbn [sent]; rewrite ?sent_quiet by after_request;
    unfold wire, Cors.request, Cors.with_headers, Cors.defaultFetchOptions;
    cbn [map method url req_headers body init_headers apiUrl headers];
    rewrite ?filter_out_key; reflexivity.
Qed.

(** ** The further properties at concrete inputs *)

(** X1, witness: a retrieval, and an upload with an invalid payload. *)
Lemma one_request_per_call_witness :
  length (sent (Cors.getBugTags
                  (Mock.env (Responded 200 "ok") (Return Mock.successBody))
                  (Mock.client RCors Mock.mockCredentials))) = 1
  /\ length (sent (Upload.submitBugReportWithFile Mock.invalidBugReport
                     (Mock.env (Responded 200 "ok") (Return Mock.successBody))
                     (Mock.client RUpload Mock.mockCredentials))) = 0.
Proof.
  split.
  - exact (one_request_per_call FileTypes RCors GetBugTags _
             (Mock.env (Responded 200 "ok") (Return Mock.successBody))
             (Mock.client RCors Mock.mockCredentials) eq_refl).
  - exact (one_request_per_call FileTypes RUpload
             (SubmitBugReportWithFile Mock.invalidBugReport) _
             (Mock.env (Responded 200 "ok") (Return Mock.successBody))
             (Mock.client RUpload Mock.mockCredentials) eq_refl).
Defined.

(** X2, witness: [getBugReport] in the [Checked] revision. *)
Lemma request_line_witness :
  length (sent (Checked.getBugReport "123"
                  (Mock.env (Responded 200 "ok") (Return Mock.successBody))
                  (Mock.client RChecked Mock.mockCredentials))) = 1
  /\ Forall (fun req => method req = "GET"
                        /\ url req = "https://api.test.com/api/bugs/123"
                        /\ body req = NoBody)
       (sent (Checked.getBugReport "123"
                (Mock.env (Responded 200 "ok") (Return Mock.successBody))
                (Mock.client RChecked Mock.mockCredentials))).
Proof.
  split; [reflexivity|]. apply Forall_forall. intros req Hin.
  destruct (request_line FileTypes RChecked (GetBugReport "123") _
              (Mock.env (Responded 200 "ok") (Return Mock.successBody))
              (Mock.client RChecked Mock.mockCredentials) req eq_refl Hin)
    as (Hmethod & Hurl & _ & Hbody).
  split_and!; [exact Hmethod | exact Hurl | exact (Hbody eq_refl)].
Defined.

(** X3, witness: the [Streamed] revision. *)
Lemma getBugReport_tags_is_getBugTags_witness :
  sent (Streamed.getBugReport "tags"
          (Mock.env (Responded 200 "ok") (Return Mock.successBody))
          (Mock.client RStreamed Mock.mockCredentials))
  = sent (Streamed.getBugTags
            (Mock.env (Responded 200 "ok") (Return Mock.successBody))
            (Mock.client RStreamed Mock.mockCredentials)).
Proof.
  exact (proj1 (getBugReport_tags_is_getBugTags FileTypes RStreamed _ _
                  (Mock.env (Responded 200 "ok") (Return Mock.successBody))
                  (Mock.client RStreamed Mock.mockCredentials) eq_refl eq_refl)).
Defined.

(** X4, witness: a progress upload of the [Checked] revision. *)
Lemma instance_after_call_witness :
  final (Checked.submitBugReportWithFileProgress
           (Mock.fileBugReport [Mock.screenshot])
           (Mock.env (Responded 200 "ok") (Return Mock.successBody))
           (Mock.client RChecked Mock.mockCredentials))
  = Mock.client RChecked Mock.mockCredentials.
Proof.
  destruct (instance_after_call FileTypes RChecked
              (SubmitBugReportWithFileProgress (Mock.fileBugReport [Mock.screenshot]))
              _ (Mock.env (Responded 200 "ok") (Return Mock.successBody))
              (Mock.client RChecked Mock.mockCredentials) eq_refl)
    as (_ & _ & Hsame & _).
  exact (Hsame eq_refl).
Defined.

(** X5, witness: [submitBugReport]. *)
Lemma cors_options_on_every_request_witness :
  length (sent (Cors.submitBugReport Mock.mockBugReport
                  (Mock.env (Responded 200 "ok") (Return Mock.successBody))
                  (Mock.client RCors Mock.mockCredentials))) = 1
  /\ Forall (fun req => credentials req = Some "include" /\ mode req = Some "cors")
       (sent (Cors.submitBugReport Mock.mockBugReport
                (Mock.env (Responded 200 "ok") (Return Mock.successBody))
                (Mock.client RCors Mock.mockCredentials))).
Proof.
  split; [reflexivity|]. apply Forall_forall. intros req Hin.
  exact (cors_options_on_every_request FileTypes RCors
           (SubmitBugReport Mock.mockBugReport) _
           (Mock.env (Responded 200 "ok") (Return Mock.successBody))
           (Mock.client RCors Mock.mockCredentials) req eq_refl Hin).
Defined.

(** X6, witness: a progress upload of the [Cors] revision. *)
Lemma content_type_sent_witness :
  length (sent (Cors.submitBugReportWithFileProgress
                  (Mock.fileBugReport [Mock.screenshot])
                  (Mock.env (Responded 200 "ok") (Return Mock.successBody))
                  (Mock.client RCors Mock.mockCredentials))) = 1
  /\ Forall (fun req => req_headers req !! "Content-Type" = None)
       (sent (Cors.submitBugReportWithFileProgress
                (Mock.fileBugReport [Mock.screenshot])
                (Mock.env (Responded 200 "ok") (Return Mock.successBody))
                (Mock.client RCors Mock.mockCredentials))).
Proof.
  split; [reflexivity|]. apply Forall_forall. intros req Hin.
  exact (content_type_sent FileTypes RCors
           (SubmitBugReportWithFileProgress (Mock.fileBugReport [Mock.screenshot])) _
           (Mock.env (Responded 200 "ok") (Return Mock.successBody))
           (Mock.client RCors Mock.mockCredentials) req eq_refl Hin).
Defined.

(** X7, witness: an HTML page with status 200. *)
Lemma unparseable_success_body_witness :
  outcome (Upload.submitBugReportWithFileProgress
             (Mock.fileBugReport [Mock.screenshot])
             (Mock.env (Responded 200 "<html>")
                (Throw (mkError SyntaxError "Unexpected token <")))
             (Mock.client RUpload Mock.mockCredentials))
  = Pending
  /\ outcome (Upload.submitBugReportWithFile
                (Mock.fileBugReport [Mock.screenshot])
                (Mock.env (Responded 200 "<html>")
                   (Throw (mkError SyntaxError "Unexpected token <")))
                (Mock.client RUpload Mock.mockCredentials))
     = Rejected (mkError SyntaxError "Unexpected token <").
Proof.
  split.
  - apply (unparseable_success_body FileTypes RUpload
             (SubmitBugReportWithFileProgress (Mock.fileBugReport [Mock.screenshot]))
             _ _ _ 200 "<html>" (mkError SyntaxError "Unexpected token <"));
      [reflexivity | reflexivity | intros; reflexivity | lia | reflexivity].
  - apply (unparseable_success_body FileTypes RUpload
             (SubmitBugReportWithFile (Mock.fileBugReport [Mock.screenshot]))
             _ _ _ 200 "<html>" (mkError SyntaxError "Unexpected token <"));
      [reflexivity | reflexivity | intros; reflexivity | lia | reflexivity].
Defined.

(** X8, witness: an HTML page with status 502. *)
Lemma unparseable_error_body_witness :
  outcome (Checked.submitBugReportWithProgress Mock.mockBugReport
             (Mock.env (Responded 502 "<html>")
                (Throw (mkError SyntaxError "Unexpected token <")))
             (Mock.client RChecked Mock.mockCredentials))
  = Rejected (mkError Error "Server returned status 502")
  /\ outcome (Checked.getBugTags
                (Mock.env (Responded 502 "<html>")
                   (Throw (mkError SyntaxError "Unexpected token <")))
                (Mock.client RChecked Mock.mockCredentials))
     = Rejected (mkError SyntaxError "Unexpected token <").
Proof.
  split.
  - apply (unparseable_error_body FileTypes RChecked
             (SubmitBugReportWithProgress Mock.mockBugReport)
             _ _ _ 502 "<html>" (mkError SyntaxError "Unexpected token <"));
      [reflexivity | reflexivity | intros; reflexivity | lia | reflexivity].
  - apply (unparseable_error_body FileTypes RChecked GetBugTags
             _ _ _ 502 "<html>" (mkError SyntaxError "Unexpected token <"));
      [reflexivity | exact I | intros; reflexivity | lia | reflexivity].
Defined.

(** X9, witness: the body [{}] with status 500. *)
Lemma error_body_without_meta_witness :
  exists message,
    outcome (Basic.getBugReport "123"
               (Mock.env (Responded 500 "{}") (Return (JObj [])))
               (Mock.client RBasic Mock.mockCredentials))
    = Rejected (mkError TypeError message).
Proof.
  apply (error_body_without_meta FileTypes RBasic (GetBugReport "123") _
           (Mock.env (Responded 500 "{}") (Return (JObj [])))
           _ 500 "{}" (JObj []));
    [reflexivity | exact I | intros; reflexivity | lia | reflexivity | reflexivity].
Defined.

(** X10, witness: status 413 with the body [null]. *)
Lemma error_status_always_rejects_witness :
  exists e,
    outcome (Cors.submitBugReportWithFileProgress
               (Mock.fileBugReport [Mock.screenshot])
               (Mock.env (Responded 413 "too large") (Return JNull))
               (Mock.client RCors Mock.mockCredentials))
    = Rejected e.
Proof.
  apply (error_status_always_rejects FileTypes RCors
           (SubmitBugReportWithFileProgress (Mock.fileBugReport [Mock.screenshot]))
           _ _ _ 413 "too large");
    [reflexivity | reflexivity | intros; reflexivity | lia].
Defined.

(** X11, witness: [getBugTags] of the [Cors] revision, answered 404. *)
Lemma api_errors_answer_error_statuses_witness :
  exists req st text,
    sent (Cors.getBugTags
            (Mock.env (Responded 404 "gone") (Return (Mock.errorBody 404 "No tags")))
            (Mock.client RCors Mock.mockCredentials)) = [req]
    /\ transport
         (Mock.env (Responded 404 "gone") (Return (Mock.errorBody 404 "No tags")))
         req = Responded st text
    /\ ~ (200 <= st <= 299)%Z
    /\ (NotFoundBugReportError = NotFoundBugReportError ->
        st = 404%Z /\ singles_out_404 RCors GetBugTags = true).
Proof.
  apply (api_errors_answer_error_statuses FileTypes RCors GetBugTags _
           (Mock.env (Responded 404 "gone") (Return (Mock.errorBody 404 "No tags")))
           (Mock.client RCors Mock.mockCredentials)
           (mkError NotFoundBugReportError "Not Found Error [404]: No tags"));
    [ reflexivity
    | split; [intros req e [=] | intros text e [=]]
    | reflexivity
    | reflexivity ].
Defined.

(** X12, witness: the report of the test suite. *)
Lemma BugReportSchema_accepts_iff_witness :
  within_bounds Mock.mockBugReport /\ optional_fields_typed Mock.mockBugReport.
Proof.
  exact (proj1 (BugReportSchema_accepts_iff
                  (Mock.env (Responded 200 "ok") (Return Mock.successBody))
                  Mock.mockBugReport) eq_refl).
Defined.

(** X13, witness: a text file is refused. *)
Lemma BugReportFileSchema_accepts_iff_witness :
  accepts (Mock.env (Responded 200 "ok") (Return Mock.successBody))
    TypesFile.BugReportFileSchema
    (Mock.fileBugReport [mkFile "notes.txt" "text/plain" 12]) = false.
Proof.
  destruct (accepts (Mock.env (Responded 200 "ok") (Return Mock.successBody))
              TypesFile.BugReportFileSchema
              (Mock.fileBugReport [mkFile "notes.txt" "text/plain" 12])) eqn:Hok;
    [|reflexivity].
  destruct (proj1 (BugReportFileSchema_accepts_iff _ _) Hok)
    as (_ & (files & Hfile & Hall) & _).
  injection Hfile as Hfile. destruct files as [|f [|]]; try discriminate Hfile.
  injection Hfile as <-. apply Forall_inv in Hall. simpl in Hall.
  destruct Hall as [H | [H | [H | []]]]; discriminate H.
Defined.

(** X14, witness: the report of the test suite. *)
Lemma earlier_BugReportSchema_accepts_iff_witness :
  within_bounds Mock.mockBugReport
  /\ prop Mock.mockBugReport "tags" <> JArr []
  /\ earlier_fields_typed Mock.mockBugReport.
Proof.
  exact (proj1 (earlier_BugReportSchema_accepts_iff
                  (Mock.env (Responded 200 "ok") (Return Mock.successBody))
                  Mock.mockBugReport) eq_refl).
Defined.

(** X15, witness: the credentials of the test suite, without [appName]. *)
Lemma checked_constructor_accepts_iff_witness :
  Checked.constructor (Mock.env (Responded 200 "ok") (Return Mock.successBody))
    (O.mk (Some "https://api.test.com") None (Some "test-key") (Some "test-secret")
       None)
  = Return (mkClient "https://api.test.com"
              (<["X-App-Key" := "test-key"]>
                 (<["Authorization" := "Bearer test-secret"]> ∅))).
Proof.
  apply (proj2 (checked_constructor_accepts_iff
                  (Mock.env (Responded 200 "ok") (Return Mock.successBody))
                  (O.mk (Some "https://api.test.com") None (Some "test-key")
                     (Some "test-secret") None)
                  _)).
  exists "https://api.test.com", "test-key", "test-secret".
  split_and!; try reflexivity; simpl; lia.
Defined.

(** X16, witness: a key of four characters in the [Upload] revision. *)
Lemma guarded_constructors_accept_iff_witness :
  exists this,
    construct (Mock.env (Responded 200 "ok") (Return Mock.successBody)) RUpload
      (O.mk (Some "https://api.test.com") None (Some "test") (Some "test") None)
    = Return this.
Proof.
  apply (guarded_constructors_accept_iff
           (Mock.env (Responded 200 "ok") (Return Mock.successBody)) RUpload
           (O.mk (Some "https://api.test.com") None (Some "test") (Some "test") None));
    [discriminate | reflexivity].
Defined.

(** X17, witness: the [Cors] and the [Basic] revision. *)
Lemma app_name_header_only_where_required_witness :
  headers (Mock.client RCors Mock.mockCredentials) !! "X-App-Name" = None
  /\ headers (Mock.client RBasic Mock.mockCredentials) !! "X-App-Name"
     = Some "TestApp".
Proof.
  split.
  - exact (app_name_header_only_where_required
             (Mock.env (Responded 200 "ok") (Return Mock.successBody)) RCors
             Mock.mockCredentials _ eq_refl).
  - exact (app_name_header_only_where_required
             (Mock.env (Responded 200 "ok") (Return Mock.successBody)) RBasic
             Mock.mockCredentials _ eq_refl).
Defined.

(** X18, witness: a report with a property the schema does not know. *)
Lemma submission_body_keeps_every_property_witness :
  exists req sentObject,
    sent (Streamed.submitBugReportWithProgress ImageTypes
            (JObj (set_field "reporter" (JStr "qa") (spread Mock.mockBugReport)))
            (Mock.env (Responded 200 "ok") (Return Mock.successBody))
            (Mock.client RStreamed Mock.mockCredentials)) = [req]
    /\ body_text (body req) = Some (Mock.show sentObject)
    /\ prop sentObject "reporter" = JStr "qa"
    /\ prop sentObject "createdAt" = JDate 1700000000000.
Proof.
  destruct (submission_body_keeps_every_property ImageTypes RStreamed
              (SubmitBugReportWithProgress
                 (JObj (set_field "reporter" (JStr "qa") (spread Mock.mockBugReport))))
              _ (JObj (set_field "reporter" (JStr "qa") (spread Mock.mockBugReport)))
              (Mock.env (Responded 200 "ok") (Return Mock.successBody))
              (Mock.client RStreamed Mock.mockCredentials)
              (or_intror eq_refl) eq_refl eq_refl)
    as (req & sentObject & Hsent & Hbody & _ & Hkeep & Hstamp & _).
  exists req, sentObject. split_and!; [exact Hsent | exact Hbody | |].
  - rewrite Hkeep by discriminate. reflexivity.
  - apply Hstamp. reflexivity.
Defined.


(** X20, witness: the two uploads of the [Cors] revision. *)
Lemma progress_variants_send_the_same_witness :
  map wire
    (sent (Cors.submitBugReportWithFile (Mock.fileBugReport [Mock.screenshot])
             (Mock.env (Responded 200 "ok") (Return Mock.successBody))
             (Mock.client RCors Mock.mockCredentials)))
  = map wire
      (sent (Cors.submitBugReportWithFileProgress
               (Mock.fileBugReport [Mock.screenshot])
               (Mock.env (Responded 200 "ok") (Return Mock.successBody))
               (Mock.client RCors Mock.mockCredentials))).
Proof.
  apply (progress_variants_send_the_same FileTypes RCors
           (Mock.fileBugReport [Mock.screenshot])).
  right. split; reflexivity.
Defined.

